(** * The fetch / save / upload batch job of [sample_api.py]

    A shallow embedding of the four functions of [sample_api.py]
    ([pull_data_from_api], [save_data_to_csv], [upload_to_snowflake] and
    [main]) together with the properties that its specification states
    about them.

    The program is effectful Python: it talks to an HTTP server, to the
    file system, to the process environment, to the logging module and to
    the Snowflake driver, and it uses exceptions for control flow.  The
    embedding is a reader/state/exception monad [Py]:

    - the reader part [Env] says how the outside world answers (what the
      n-th HTTP request yields, which paths cannot be written, what the
      environment variables hold, whether the driver calls fail);
    - the state part [State] is everything the program changes: the files
      it wrote, the log records it emitted, and a ghost trace of the calls
      it made to its collaborators (the "fake that records calls" of the
      specification's test plan);
    - a computation either returns a value or raises a Python exception.

    The libraries themselves ([requests], [pandas], [snowflake.connector])
    are not part of the repository; the few facts about them the program
    relies on are written down next to the definition that uses them. *)

From Stdlib Require Import ZArith Ascii String List Bool Lia.
From stdpp Require Import base strings list gmap.

Import ListNotations.
Set Warnings "-register-all".
#[local] Unset Elimination Schemes.
Local Open Scope string_scope.
Local Open Scope Z_scope.

(** ** Python values *)

(** What [response.json()] can return: the decoded JSON document.  JSON
    [null] is Python's [None], which is also the absence-of-data marker of
    [pull_data_from_api].  A JSON object is a Python [dict]; insertion
    order is observable (pandas derives the column order from it), hence an
    association list.  Numbers are kept as integers. *)
Inductive pyval : Type :=
| PyNone
| PyBool (b : bool)
| PyInt (z : Z)
| PyStr (s : string)
| PyList (items : list pyval)
| PyDict (entries : list (string * pyval)).

#[local] Set Elimination Schemes.

(** Python truthiness, as used by [if data:] in [main]. *)
Definition truthy (v : pyval) : bool :=
  match v with
  | PyNone => false
  | PyBool b => b
  | PyInt z => negb (z =? 0)
  | PyStr s => negb (String.eqb s "")
  | PyList items => match items with [] => false | _ :: _ => true end
  | PyDict entries => match entries with [] => false | _ :: _ => true end
  end.

(** Truthiness of an optional string, as used by [if not bucket_name:]. *)
Definition truthy_opt_str (o : option string) : bool :=
  match o with
  | None => false
  | Some s => negb (String.eqb s "")
  end.

(** ** Exceptions *)

(** The exception classes that matter to the three [except] clauses.
    [HTTPError], [ConnectionError], [ReadTimeout], [InvalidURL] and
    [JSONDecodeError] are the classes of [requests.exceptions]; all of them
    derive from [requests.exceptions.RequestException] (for
    [JSONDecodeError] since requests 2.27).  [RecursionError] is a builtin
    [Exception] outside that family.  [KeyboardInterrupt] derives from
    [BaseException] only. *)
Inductive exn_class : Type :=
| HTTPError
| ConnectionError
| ReadTimeout
| InvalidURL
| JSONDecodeError
| ValueError
| TypeError
| AttributeError
| OSError
| DatabaseError
| RecursionError
| KeyboardInterrupt.

Record exn : Type := MkExn { exn_cls : exn_class; exn_msg : string }.

(** [isinstance(e, requests.exceptions.RequestException)] *)
Definition is_RequestException (e : exn) : bool :=
  match exn_cls e with
  | HTTPError | ConnectionError | ReadTimeout | InvalidURL | JSONDecodeError => true
  | _ => false
  end.

(** [isinstance(e, Exception)] *)
Definition is_Exception (e : exn) : bool :=
  match exn_cls e with
  | KeyboardInterrupt => false
  | _ => true
  end.

(** ** Tabular data *)

(** A cell of a frame: a value, or pandas' missing-value marker. *)
Inductive cell : Type :=
| NaN
| Val (v : pyval).

(** The part of a [pandas.DataFrame] the program depends on: the ordered
    column labels and the rows in order. *)
Record DataFrame : Type := MkFrame {
  columns : list string;
  rows : list (list cell)
}.

(** A delimited text file as written by [DataFrame.to_csv(path,
    index=False)]: one header row holding the column labels, then one data
    row per row of the frame.  The file is kept as the table of its fields;
    the quoting of a field and the textual form of a number are pandas' and
    are not modelled. *)
Record CsvFile : Type := MkCsv {
  header_row : list string;
  data_rows : list (list cell)
}.

(** ** The outside world and the program state *)

(** What [Response.json()] does with the body: it returns the decoded
    document; or the body is not JSON and requests raises its
    [JSONDecodeError]; or the decoder itself raises something else (a
    [RecursionError] on a valid body nested deeper than the interpreter's
    recursion limit). *)
Inductive decoding : Type :=
| Decoded (v : pyval)
| NotJson
| DecodeRaises (e : exn).

Record response : Type := MkResponse {
  status_code : Z;
  text : string;
  (** the outcome of decoding the body *)
  json_body : decoding
}.

Inductive http_outcome : Type :=
| HttpRaises (e : exn)
| HttpResponse (r : response).

Record credentials : Type := MkCredentials {
  cred_user : option string;
  cred_password : option string;
  cred_account : option string;
  cred_warehouse : option string;
  cred_database : option string;
  cred_schema : option string
}.

Inductive outcome (A : Type) : Type :=
| Returned (a : A)
| Raised (e : exn).
Arguments Returned {A} a.
Arguments Raised {A} e.

Record Env : Type := MkEnv {
  (** the answer to the n-th call of [requests.get], counted from 0 *)
  http_get : nat -> string -> list (string * string) -> http_outcome;
  (** [os.environ] *)
  environ : gmap string string;
  (** [os.getcwd()] *)
  cwd : string;
  (** the paths that cannot be opened for writing *)
  unwritable : gset string;
  (** [pandas.DataFrame(data)] for the payload shapes the specification's
      data model does not cover (a dict, a list of lists or of scalars, a
      list that mixes records with other items) *)
  pandas_other : pyval -> outcome DataFrame;
  (** the Snowflake driver: [None] means the call succeeds; the [nat] is
      the connection the call is made on *)
  sf_connect : credentials -> option exn;
  sf_cursor : nat -> option exn;
  sf_cursor_close : nat -> option exn;
  sf_conn_close : nat -> option exn
}.

Inductive level : Type := LvDebug | LvInfo | LvWarning | LvError.

Record log_record : Type := MkLog { log_level : level; log_msg : string }.

(** Ghost trace of the calls made to the collaborators. *)
Inductive event : Type :=
| EvHttpGet (url : string)
| EvFileWrite (path : string)
| EvLoaderCall (nargs : nat)
| EvConnect (conn : nat)
| EvCursor (conn : nat)
| EvCursorClose (conn : nat)
| EvConnClose (conn : nat).

(** What a run changes.  [files] holds the data files the program writes;
    the log records, which the logging configuration sends to the console
    and to [script.log], are kept apart in [log]. *)
Record State : Type := MkState {
  requests_made : nat;
  connections_made : nat;
  files : gmap string CsvFile;
  log : list log_record;
  events : list event
}.

(** ** The monad *)

Definition Py (A : Type) : Type := Env -> State -> outcome A * State.

Definition ret {A : Type} (a : A) : Py A :=
  fun _ st => (Returned a, st).

Definition raise {A : Type} (e : exn) : Py A :=
  fun _ st => (Raised e, st).

Definition bind {A B : Type} (m : Py A) (k : A -> Py B) : Py B :=
  fun env st =>
    match m env st with
    | (Returned a, st') => k a env st'
    | (Raised e, st') => (Raised e, st')
    end.

(** [try: body  except <class> as e: handler e] *)
Definition try_except {A : Type} (body : Py A) (catches : exn -> bool)
    (handler : exn -> Py A) : Py A :=
  fun env st =>
    match body env st with
    | (Returned a, st') => (Returned a, st')
    | (Raised e, st') =>
        if catches e then handler e env st' else (Raised e, st')
    end.

Declare Scope py_scope.
Delimit Scope py_scope with py.
Notation "'let*' x ':=' c1 'in' c2" := (bind c1 (fun x => c2))
  (at level 10, x name, c1 at level 100, c2 at level 200) : py_scope.
Notation "c1 >> c2" := (bind c1 (fun _ => c2))
  (at level 100, c2 at level 200, right associativity) : py_scope.
Local Open Scope py_scope.

Definition modify (f : State -> State) : Py unit :=
  fun _ st => (Returned tt, f st).

(** State updates: one more log record, one more traced call, one more
    request or connection made, a file created or overwritten. *)
Definition add_log (r : log_record) (st : State) : State :=
  MkState (requests_made st) (connections_made st) (files st)
          (log st ++ [r]) (events st).

Definition add_event (ev : event) (st : State) : State :=
  MkState (requests_made st) (connections_made st) (files st) (log st)
          (events st ++ [ev]).

Definition count_request (st : State) : State :=
  MkState (S (requests_made st)) (connections_made st) (files st) (log st)
          (events st).

Definition count_connection (st : State) : State :=
  MkState (requests_made st) (S (connections_made st)) (files st) (log st)
          (events st).

Definition put_file (path : string) (f : CsvFile) (st : State) : State :=
  MkState (requests_made st) (connections_made st)
          (<[path := f]> (files st)) (log st) (events st).

Definition emit (ev : event) : Py unit := modify (add_event ev).

(** ** logging *)

(** [logging.basicConfig(level=logging.INFO, ...)]: records below INFO are
    dropped. *)
Definition level_enabled (lv : level) : bool :=
  match lv with
  | LvDebug => false
  | _ => true
  end.

Definition logging_log (lv : level) (msg : string) : Py unit :=
  if level_enabled lv then modify (add_log (MkLog lv msg)) else ret tt.

Definition logging_info : string -> Py unit := logging_log LvInfo.
Definition logging_debug : string -> Py unit := logging_log LvDebug.
Definition logging_error : string -> Py unit := logging_log LvError.

(** ** os *)

Definition os_getenv (name : string) : Py (option string) :=
  fun env st => (Returned (environ env !! name), st).

(** [os.getcwd()].  The working directory is taken to exist; the
    [FileNotFoundError] of a working directory that has been removed is not
    modelled. *)
Definition os_getcwd : Py string :=
  fun env st => (Returned (cwd env), st).

Definition ends_with_sep (p : string) : bool :=
  match rev (list_ascii_of_string p) with
  | c :: _ => Ascii.eqb c "/"%char
  | [] => false
  end.

(** [os.path.join(a, b)] for a relative [b] (posixpath). *)
Definition os_path_join (a b : string) : string :=
  if String.eqb a "" || ends_with_sep a then a +:+ b else a +:+ "/" +:+ b.

(** ** requests *)

(** [requests.get(url, params=params)]: one request is made; the world
    decides whether it raises or answers. *)
Definition requests_get (url : string) (params : list (string * string))
    : Py response :=
  fun env st =>
    let st' := add_event (EvHttpGet url) (count_request st) in
    match http_get env (requests_made st) url params with
    | HttpRaises e => (Raised e, st')
    | HttpResponse r => (Returned r, st')
    end.

(** [Response.raise_for_status()]: requests raises [HTTPError] for the
    client errors 400..499 and the server errors 500..599, and for nothing
    else.  (The real message also carries the status, the reason phrase and
    the URL.) *)
Definition raise_for_status (r : response) : Py unit :=
  if (400 <=? status_code r) && (status_code r <? 500) then
    raise (MkExn HTTPError "Client Error")
  else if (500 <=? status_code r) && (status_code r <? 600) then
    raise (MkExn HTTPError "Server Error")
  else ret tt.

(** [Response.json()]: the decoded body, requests' [JSONDecodeError] on a
    body that is not JSON, or whatever else the decoder raised. *)
Definition response_json (r : response) : Py pyval :=
  match json_body r with
  | Decoded v => ret v
  | NotJson => raise (MkExn JSONDecodeError "Expecting value")
  | DecodeRaises e => raise e
  end.

(** ** pandas *)

Definition dict_keys (d : list (string * pyval)) : list string := map fst d.

(** [d.get(k)]: the first binding of [k]. *)
Fixpoint dict_get (k : string) (d : list (string * pyval)) : option pyval :=
  match d with
  | [] => None
  | (k', v) :: d' => if String.eqb k k' then Some v else dict_get k d'
  end.

Definition add_unseen (seen : list string) (k : string) : list string :=
  if bool_decide (k ∈ seen) then seen else seen ++ [k].

(** [lib.fast_unique_multiple_list_gen(gen, sort=False)]: every label once,
    in order of first appearance. *)
Definition fast_unique_multiple_list_gen (gen : list (list string))
    : list string :=
  fold_left (fun seen ks => fold_left add_unseen ks seen) gen [].

Definition cell_of (o : option pyval) : cell :=
  match o with
  | Some v => Val v
  | None => NaN
  end.

(** [lib.dicts_to_array(dicts, columns)]: row i, column j is
    [dicts[i][columns[j]]] when the key is present and NaN otherwise. *)
Definition dicts_to_array (dicts : list (list (string * pyval)))
    (cols : list string) : list (list cell) :=
  map (fun row => map (fun col => cell_of (dict_get col row)) cols) dicts.

(** All items as dicts, or [None] when one of them is not a dict. *)
Fixpoint as_dicts (items : list pyval)
    : option (list (list (string * pyval))) :=
  match items with
  | [] => Some []
  | PyDict d :: tl => option_map (cons d) (as_dicts tl)
  | _ :: _ => None
  end.

Definition empty_frame : DataFrame := MkFrame [] [].

(** [pd.DataFrame(data)].  [None] and the empty list give the empty frame;
    a scalar is rejected; a list of dicts goes through
    [_list_of_dict_to_arrays].  Every other shape, a list that mixes dicts
    with other items included (what pandas makes of such an item depends on
    its version), is left to [pandas_other]. *)
Definition pd_DataFrame (data : pyval) : Py DataFrame :=
  match data with
  | PyNone => ret empty_frame
  | PyList [] => ret empty_frame
  | PyList (PyDict d :: tl) =>
      match as_dicts tl with
      | Some ds =>
          let cols := fast_unique_multiple_list_gen (map dict_keys (d :: ds)) in
          ret (MkFrame cols (dicts_to_array (d :: ds) cols))
      | None => fun env st => (pandas_other env data, st)
      end
  | PyBool _ | PyInt _ | PyStr _ =>
      raise (MkExn ValueError "DataFrame constructor not properly called!")
  | _ => fun env st => (pandas_other env data, st)
  end.

Definition csv_of (df : DataFrame) : CsvFile :=
  MkCsv (columns df) (rows df).

(** [df.to_csv(path, index=False)]: the file is created or overwritten;
    [OSError] when the path cannot be opened for writing. *)
Definition to_csv (df : DataFrame) (path : string) : Py unit :=
  fun env st =>
    if bool_decide (path ∈ unwritable env) then
      (Raised (MkExn OSError "Permission denied"), st)
    else
      (Returned tt, add_event (EvFileWrite path) (put_file path (csv_of df) st)).

(** ** snowflake.connector *)

(** [snowflake.connector.connect(...)]: the call is traced, then the driver
    either raises or hands out a fresh connection. *)
Definition snowflake_connect (c : credentials) : Py nat :=
  fun env st =>
    let conn := connections_made st in
    let st' := add_event (EvConnect conn) (count_connection st) in
    match sf_connect env c with
    | Some e => (Raised e, st')
    | None => (Returned conn, st')
    end.

Definition driver_call (ev : event) (answer : Env -> option exn) : Py unit :=
  emit ev >>
  fun env st =>
    match answer env with
    | Some e => (Raised e, st)
    | None => (Returned tt, st)
    end.

(** [conn.cursor()]; the cursor is identified with its connection. *)
Definition conn_cursor (conn : nat) : Py nat :=
  driver_call (EvCursor conn) (fun env => sf_cursor env conn) >> ret conn.

(** [cursor.close()] *)
Definition cursor_close (cursor : nat) : Py unit :=
  driver_call (EvCursorClose cursor) (fun env => sf_cursor_close env cursor).

(** [conn.close()] *)
Definition conn_close (conn : nat) : Py unit :=
  driver_call (EvConnClose conn) (fun env => sf_conn_close env conn).

(** How often [close()] was called on connection [conn]. *)
Definition is_close_of (conn : nat) (ev : event) : bool :=
  match ev with
  | EvConnClose c => Nat.eqb c conn
  | _ => false
  end.


Definition is_connect (ev : event) : bool :=
  match ev with
  | EvConnect _ => true
  | _ => false
  end.

Definition is_file_write (ev : event) : bool :=
  match ev with
  | EvFileWrite _ => true
  | _ => false
  end.

Definition is_loader_call (ev : event) : bool :=
  match ev with
  | EvLoaderCall _ => true
  | _ => false
  end.

Definition is_http_get (ev : event) : bool :=
  match ev with
  | EvHttpGet _ => true
  | _ => false
  end.

Definition count_events (p : event -> bool) (evs : list event) : nat :=
  length (List.filter p evs).

Definition close_count (conn : nat) (evs : list event) : nat :=
  count_events (is_close_of conn) evs.

(** ** The program *)

(** [pull_data_from_api(api_url, params=None)], lines 18-34.  The DEBUG
    record is built from [response.text] and dropped by the logging
    configuration. *)
Definition pull_data_from_api (api_url : string)
    (params : list (string * string)) : Py pyval :=
  try_except
    (let* response := requests_get api_url params in
     raise_for_status response >>
     logging_info ("Successfully pulled data from " +:+ api_url) >>
     logging_debug ("Response: " +:+ text response) >>
     response_json response)
    is_RequestException
    (fun e =>
       logging_error ("Error pulling data from API: " +:+ exn_msg e) >>
       ret PyNone).

(** [save_data_to_csv(data, file_path)], lines 36-49.  The [try] block has
    no [return] statement: when it completes, the function falls off its
    end and the call evaluates to [None]; the handler returns [None]
    explicitly.  The result type is what the caller binds to [df]: a frame
    or [None]. *)
Definition save_data_to_csv (data : pyval) (file_path : string)
    : Py (option DataFrame) :=
  try_except
    (let* df := pd_DataFrame data in
     to_csv df file_path >>
     logging_info ("Data saved to " +:+ file_path) >>
     ret None)
    is_Exception
    (fun e =>
       logging_error ("Error saving data to CSV: " +:+ exn_msg e) >>
       ret None).

(** An actual argument at a call of [upload_to_snowflake]: the value bound
    to [df] by [main] (a frame or [None]), or a string. *)
Inductive pyarg : Type :=
| ArgFrame (df : option DataFrame)
| ArgStr (s : string).

(** [str(x)] inside an f-string; no call site formats a frame. *)
Definition str_arg (a : pyarg) : string :=
  match a with
  | ArgStr s => s
  | ArgFrame None => "None"
  | ArgFrame (Some _) => "<DataFrame>"
  end.

(** [upload_to_snowflake(df, table_name)], lines 51-76: the body.  Between
    [conn.cursor()] and [cursor.close()] the source has only the comment
    [# Insert logic here] and the INFO record. *)
Definition upload_to_snowflake (df : pyarg) (table_name : pyarg) : Py unit :=
  try_except
    (let* sf_user := os_getenv "SNOWFLAKE_USER" in
     let* sf_password := os_getenv "SNOWFLAKE_PASSWORD" in
     let* sf_account := os_getenv "SNOWFLAKE_ACCOUNT" in
     let* sf_database := os_getenv "SNOWFLAKE_DATABASE" in
     let* sf_schema := os_getenv "SNOWFLAKE_SCHEMA" in
     let* sf_warehouse := os_getenv "SNOWFLAKE_WAREHOUSE" in
     let* conn := snowflake_connect
                    (MkCredentials sf_user sf_password sf_account
                       sf_warehouse sf_database sf_schema) in
     let* cursor := conn_cursor conn in
     logging_info ("Data uploaded to Snowflake table " +:+ str_arg table_name) >>
     cursor_close cursor >>
     conn_close conn)
    is_Exception
    (fun e => logging_error ("Error uploading to Snowflake: " +:+ exn_msg e)).

(** A call [upload_to_snowflake(a1, ..., an)].  The function has two
    positional parameters; Python binds the arguments before it runs the
    body and raises [TypeError] at the call when their number is wrong. *)
Definition call_upload_to_snowflake (args : list pyarg) : Py unit :=
  emit (EvLoaderCall (length args)) >>
  match args with
  | [df; table_name] => upload_to_snowflake df table_name
  | [_; _; _] =>
      raise (MkExn TypeError
        "upload_to_snowflake() takes 2 positional arguments but 3 were given")
  | _ =>
      raise (MkExn TypeError
        "upload_to_snowflake() called with the wrong number of arguments")
  end.

Definition api_url : string := "https://api.example.com/data".

Definition params : list (string * string) :=
  [("start_date", "2025-01-01"); ("end_date", "2025-05-05")].

(** Lines 103-128 of [main]: the second fetch and save, the test on
    [GCS_BUCKET_NAME], and the call of [upload_to_snowflake] with three
    arguments.  The value of [save_data_to_csv] is discarded. *)
Definition main_second_pass : Py unit :=
  let* data := pull_data_from_api api_url params in
  if truthy data then
    let* dir := os_getcwd in
    let file_path := os_path_join dir "api_data.csv" in
    save_data_to_csv data file_path >>
    let* bucket_name := os_getenv "GCS_BUCKET_NAME" in
    if negb (truthy_opt_str bucket_name) then
      logging_error "GCS_BUCKET_NAME environment variable is not set."
    else
      let destination_blob_name := "api_data.csv" in
      call_upload_to_snowflake
        [ArgStr (default "" bucket_name); ArgStr file_path;
         ArgStr destination_blob_name]
  else
    logging_error "No data to save. Exiting.".

(** [main()], lines 79-128.  A [return] in a branch ends the run: the rest
    of the function is the continuation of the other branch only. *)
Definition main : Py unit :=
  let* data := pull_data_from_api api_url params in
  if truthy data then
    let* dir := os_getcwd in
    let file_path := os_path_join dir "api_data.csv" in
    let* df := save_data_to_csv data file_path in
    (match df with
     | Some _ =>
         let table_name := "API_DATA_TABLE" in
         call_upload_to_snowflake [ArgFrame df; ArgStr table_name]
     | None => ret tt
     end) >>
    main_second_pass
  else
    logging_error "No data to process. Exiting.".

(** The state a run starts from: nothing requested, nothing written,
    nothing logged. *)
Definition initial_state : State := MkState 0 0 ∅ [] [].

(** ** Concrete worlds *)

(** The payload of the specification's first end-to-end scenario:
    [[{"id":1,"val":"a"},{"id":2,"val":"b"}]]. *)
Definition two_records : pyval :=
  PyList [PyDict [("id", PyInt 1); ("val", PyStr "a")];
          PyDict [("id", PyInt 2); ("val", PyStr "b")]].

(** A world in which every request is answered by [r], every driver call
    succeeds and every path is writable, with the given environment
    variables. *)
Definition world (r : http_outcome) (vars : gmap string string)
    (locked : gset string) : Env :=
  MkEnv (fun _ _ _ => r) vars "/work" locked
        (fun _ => Raised (MkExn ValueError "unsupported payload shape"))
        (fun _ => None) (fun _ => None) (fun _ => None) (fun _ => None).

Definition answer (status : Z) (body : decoding) : http_outcome :=
  HttpResponse (MkResponse status "" body).

(** The API answers 200 with the two records; no bucket variable. *)
Definition world_two_records : Env :=
  world (answer 200 (Decoded two_records)) ∅ ∅.

(** The same, with [GCS_BUCKET_NAME] set. *)
Definition world_bucket : Env :=
  world (answer 200 (Decoded two_records)) {[ "GCS_BUCKET_NAME" := "bucket" ]} ∅.

(** The same, and the output path cannot be written. *)
Definition world_locked_bucket : Env :=
  world (answer 200 (Decoded two_records)) {[ "GCS_BUCKET_NAME" := "bucket" ]}
        {[ "/work/api_data.csv" ]}.

(** The API answers HTTP 500. *)
Definition world_http_500 : Env := world (answer 500 NotJson) ∅ ∅.

(** The API answers 300 (Multiple Choices) with a JSON body. *)
Definition world_http_300 : Env :=
  world (answer 300 (Decoded two_records)) ∅ ∅.

(** The API answers 200 with the empty array. *)
Definition world_empty_array : Env :=
  world (answer 200 (Decoded (PyList []))) ∅ ∅.

(** The API answers 200 with valid JSON nested so deeply that the decoder
    raises [RecursionError]. *)
Definition world_deep_body : Env :=
  world (answer 200
           (DecodeRaises
              (MkExn RecursionError
                 "maximum recursion depth exceeded while decoding a JSON array")))
        ∅ ∅.

(** The network is down. *)
Definition world_offline : Env :=
  world (HttpRaises (MkExn ConnectionError "Connection refused")) ∅ ∅.

(** The driver connects, then [conn.cursor()] raises. *)
Definition world_cursor_fails : Env :=
  MkEnv (fun _ _ _ => answer 200 (Decoded two_records)) ∅ "/work" ∅
        (fun _ => Raised (MkExn ValueError "unsupported payload shape"))
        (fun _ => None)
        (fun _ => Some (MkExn DatabaseError "Connection is closed"))
        (fun _ => None) (fun _ => None).

(** The frame pandas builds from [two_records]. *)
Definition two_records_frame : DataFrame :=
  MkFrame ["id"; "val"]
          [[Val (PyInt 1); Val (PyStr "a")]; [Val (PyInt 2); Val (PyStr "b")]].

(** ** Vocabulary of the statements *)

(** A status [raise_for_status] rejects. *)
Definition bad_status (r : response) : bool :=
  (400 <=? status_code r) && (status_code r <? 600).

(** The three ways a fetch fails: the request raises one of requests' own
    exceptions (timeout, DNS, connection refused, ...), the status is a
    client or server error, or decoding the body raises one of requests'
    own exceptions (the body is not JSON). *)
Definition fetch_failed (o : http_outcome) : bool :=
  match o with
  | HttpRaises e => is_RequestException e
  | HttpResponse r =>
      bad_status r ||
      match json_body r with
      | Decoded _ => false
      | NotJson => true
      | DecodeRaises e => is_RequestException e
      end
  end.

(** The fetch meets an exception that is not one of requests' own: raised
    by [requests.get], or raised by [Response.json()] on a response whose
    status passed. *)
Definition raises_foreign (o : http_outcome) : bool :=
  match o with
  | HttpRaises e => negb (is_RequestException e)
  | HttpResponse r =>
      negb (bad_status r) &&
      match json_body r with
      | DecodeRaises e => negb (is_RequestException e)
      | _ => false
      end
  end.

Definition pull_error (msg : string) : log_record :=
  MkLog LvError ("Error pulling data from API: " +:+ msg).

Definition pull_success (url : string) : log_record :=
  MkLog LvInfo ("Successfully pulled data from " +:+ url).

Definition no_data_to_process : log_record :=
  MkLog LvError "No data to process. Exiting.".

(** The frame [pd.DataFrame] builds from a non-empty list of records. *)
Definition frame_of_records (recs : list (list (string * pyval))) : DataFrame :=
  let cols := fast_unique_multiple_list_gen (map dict_keys recs) in
  MkFrame cols (dicts_to_array recs cols).

Definition save_error (msg : string) : log_record :=
  MkLog LvError ("Error saving data to CSV: " +:+ msg).

Definition data_saved (path : string) : log_record :=
  MkLog LvInfo ("Data saved to " +:+ path).

(** The state after [df.to_csv(path, index=False)] has written its file. *)
Definition written (path : string) (df : DataFrame) (st : State) : State :=
  add_event (EvFileWrite path) (put_file path (csv_of df) st).

(** The credentials [upload_to_snowflake] reads from the environment. *)
Definition env_credentials (env : Env) : credentials :=
  MkCredentials (environ env !! "SNOWFLAKE_USER")
                (environ env !! "SNOWFLAKE_PASSWORD")
                (environ env !! "SNOWFLAKE_ACCOUNT")
                (environ env !! "SNOWFLAKE_WAREHOUSE")
                (environ env !! "SNOWFLAKE_DATABASE")
                (environ env !! "SNOWFLAKE_SCHEMA").

Definition data_uploaded (table_name : pyarg) : log_record :=
  MkLog LvInfo ("Data uploaded to Snowflake table " +:+ str_arg table_name).

Definition upload_error (msg : string) : log_record :=
  MkLog LvError ("Error uploading to Snowflake: " +:+ msg).

(** The [except Exception] clause of [upload_to_snowflake], entered in
    state [st] with exception [e]. *)
Definition upload_handler (e : exn) (st : State) : outcome unit * State :=
  if is_Exception e then (Returned tt, add_log (upload_error (exn_msg e)) st)
  else (Raised e, st).

(** The state after [connect] has been called. *)
Definition connected (st : State) : State :=
  add_event (EvConnect (connections_made st)) (count_connection st).

(** Between [st] and [st'] the driver's [connect] was not called. *)
Definition no_connect (st st' : State) : Prop :=
  connections_made st' = connections_made st /\
  count_events is_connect (events st') = count_events is_connect (events st).

(** The state right after the n-th request has been issued. *)
Definition requested (url : string) (st : State) : State :=
  add_event (EvHttpGet url) (count_request st).

(** The message of the [HTTPError] of a rejected status. *)
Definition status_error_msg (r : response) : string :=
  if status_code r <? 500 then "Client Error" else "Server Error".

(** ** More worlds and vocabulary *)

(** [requests.get] is interrupted from the keyboard. *)
Definition world_interrupted : Env :=
  world (HttpRaises (MkExn KeyboardInterrupt "")) ∅ ∅.

(** The API answers 200 with a body that is not JSON. *)
Definition world_not_json : Env := world (answer 200 NotJson) ∅ ∅.

(** The first request is answered with the two records, every later one
    with HTTP 500. *)
Definition world_second_fetch_fails : Env :=
  MkEnv (fun n _ _ => match n with
                      | O => answer 200 (Decoded two_records)
                      | S _ => answer 500 NotJson
                      end)
        ∅ "/work" ∅
        (fun _ => Raised (MkExn ValueError "unsupported payload shape"))
        (fun _ => None) (fun _ => None) (fun _ => None) (fun _ => None).

(** The first request is answered with the two records, every later one
    with a single other record. *)
Definition world_changing_payload : Env :=
  MkEnv (fun n _ _ =>
           match n with
           | O => answer 200 (Decoded two_records)
           | S _ => answer 200 (Decoded (PyList [PyDict [("id", PyInt 3)]]))
           end)
        ∅ "/work" ∅
        (fun _ => Raised (MkExn ValueError "unsupported payload shape"))
        (fun _ => None) (fun _ => None) (fun _ => None) (fun _ => None).

(** The driver refuses to connect. *)
Definition world_connect_fails : Env :=
  MkEnv (fun _ _ _ => answer 200 (Decoded two_records)) ∅ "/work" ∅
        (fun _ => Raised (MkExn ValueError "unsupported payload shape"))
        (fun _ => Some (MkExn DatabaseError "Incorrect username or password"))
        (fun _ => None) (fun _ => None) (fun _ => None).

(** The driver connects and opens a cursor, then [cursor.close()] raises. *)
Definition world_cursor_close_fails : Env :=
  MkEnv (fun _ _ _ => answer 200 (Decoded two_records)) ∅ "/work" ∅
        (fun _ => Raised (MkExn ValueError "unsupported payload shape"))
        (fun _ => None) (fun _ => None)
        (fun _ => Some (MkExn DatabaseError "Cursor is closed"))
        (fun _ => None).

(** A payload that is a bare scalar. *)
Definition is_scalar (v : pyval) : bool :=
  match v with
  | PyBool _ | PyInt _ | PyStr _ => true
  | _ => false
  end.

(** The path [main] writes to. *)
Definition output_path (env : Env) : string :=
  os_path_join (cwd env) "api_data.csv".

Definition bucket_not_set : log_record :=
  MkLog LvError "GCS_BUCKET_NAME environment variable is not set.".

Definition no_data_to_save : log_record :=
  MkLog LvError "No data to save. Exiting.".

(** The [TypeError] of the three-argument call at line 117. *)
Definition arity_error : exn :=
  MkExn TypeError
    "upload_to_snowflake() takes 2 positional arguments but 3 were given".

(** The calls a run of [main] can make: a GET of [api_url], a write of the
    output path, a three-argument call of the loader. *)
Definition main_event (out : string) (ev : event) : bool :=
  match ev with
  | EvHttpGet url => String.eqb url api_url
  | EvFileWrite path => String.eqb path out
  | EvLoaderCall nargs => Nat.eqb nargs 3
  | _ => false
  end.

(** From [st] to [st'] only calls satisfying [allowed] were traced, and no
    data file other than [out] was touched. *)
Definition footprint (allowed : event -> bool) (out : string)
    (st st' : State) : Prop :=
  delete out (files st') = delete out (files st) /\
  exists evs,
    events st' = (events st ++ evs)%list /\ forallb allowed evs = true.

(** From [st] to [st'] records were only appended to the log, that is, to
    the console and to the end of [script.log]. *)
Definition log_grows (st st' : State) : Prop :=
  exists recs, log st' = (log st ++ recs)%list.

(** The calls one run of [upload_to_snowflake] on connection [c] can
    make. *)
Definition is_driver_event_of (c : nat) (ev : event) : bool :=
  match ev with
  | EvConnect n | EvCursor n | EvCursorClose n | EvConnClose n => Nat.eqb n c
  | _ => false
  end.

(** Pandas raises nothing outside [Exception] on the payload shapes left to
    [pandas_other]. *)
Definition pandas_raises_only_Exception (env : Env) : Prop :=
  forall v e, pandas_other env v = Raised e -> is_Exception e = true.

(** Whether [connect], [cursor()] and [cursor.close()] all succeed on the
    next connection. *)
Definition reaches_close (env : Env) (st : State) : bool :=
  match sf_connect env (env_credentials env),
        sf_cursor env (connections_made st),
        sf_cursor_close env (connections_made st) with
  | None, None, None => true
  | _, _, _ => false
  end.

(** Whether [connect] and [cursor()] succeed on the next connection. *)
Definition reaches_insert (env : Env) (st : State) : bool :=
  match sf_connect env (env_credentials env),
        sf_cursor env (connections_made st) with
  | None, None => true
  | _, _ => false
  end.

(** The records after the first bring no key the first one lacks, and the
    first one lists each key once. *)
Definition uniform_records (r : list (string * pyval))
    (rest : list (list (string * pyval))) : bool :=
  bool_decide (NoDup (dict_keys r)) &&
  forallb (fun r' => forallb (fun k => bool_decide (k ∈ dict_keys r))
                       (dict_keys r')) rest.

(** * Properties *)

(** ** The fetcher *)

(** What a call of [pull_data_from_api] does, by cases on the answer of the
    world. *)
Lemma pull_data_from_api_cases (url : string) (ps : list (string * string))
    (env : Env) (st : State) :
  pull_data_from_api url ps env st =
    match http_get env (requests_made st) url ps with
    | HttpRaises e =>
        if is_RequestException e
        then (Returned PyNone, add_log (pull_error (exn_msg e)) (requested url st))
        else (Raised e, requested url st)
    | HttpResponse r =>
        if bad_status r
        then (Returned PyNone,
              add_log (pull_error (status_error_msg r)) (requested url st))
        else
          match json_body r with
          | Decoded v =>
              (Returned v, add_log (pull_success url) (requested url st))
          | NotJson =>
              (Returned PyNone,
               add_log (pull_error "Expecting value")
                 (add_log (pull_success url) (requested url st)))
          | DecodeRaises e =>
              if is_RequestException e
              then (Returned PyNone,
                    add_log (pull_error (exn_msg e))
                      (add_log (pull_success url) (requested url st)))
              else (Raised e, add_log (pull_success url) (requested url st))
          end
    end.
Proof.
  unfold pull_data_from_api, try_except, bind, requests_get.
  fold (requested url st).
  destruct (http_get env (requests_made st) url ps) as [e | r].
  - destruct (is_RequestException e); reflexivity.
  - unfold raise_for_status, bad_status, status_error_msg, response_json.
    destruct (400 <=? status_code r) eqn:Hlo; cbn [andb].
    + destruct (status_code r <? 500) eqn:H5.
      * assert ((status_code r <? 600) = true) as -> by lia. reflexivity.
      * assert ((500 <=? status_code r) = true) as -> by lia. cbn [andb].
        destruct (status_code r <? 600); [reflexivity |].
        cbn. destruct (json_body r) as [v | | e]; reflexivity.
    + assert ((500 <=? status_code r) = false) as -> by lia. cbn [andb].
      cbn. destruct (json_body r) as [v | | e]; reflexivity.
Qed.

(** The fetcher issues exactly one request and touches neither the files
    nor the driver. *)
Lemma pull_data_from_api_effects (url : string) (ps : list (string * string))
    (env : Env) (st : State) :
  let st' := snd (pull_data_from_api url ps env st) in
  files st' = files st /\
  events st' = (events st ++ [EvHttpGet url])%list /\
  connections_made st' = connections_made st /\
  requests_made st' = S (requests_made st).
Proof.
  rewrite pull_data_from_api_cases.
  destruct (http_get env (requests_made st) url ps) as [e | r].
  - destruct (is_RequestException e); cbn; auto.
  - destruct (bad_status r); [cbn; auto |].
    destruct (json_body r) as [v | | e]; cbn; auto.
    destruct (is_RequestException e); cbn; auto.
Qed.

(** A failed fetch ends in the handler: [None] is returned and the last
    record logged is the handler's ERROR record. *)
Lemma failed_fetch_returns_None (url : string) (ps : list (string * string))
    (env : Env) (st : State) :
  fetch_failed (http_get env (requests_made st) url ps) = true ->
  exists msg st1,
    pull_data_from_api url ps env st
      = (Returned PyNone, add_log (pull_error msg) st1).
Proof.
  intros Hfail. rewrite pull_data_from_api_cases.
  destruct (http_get env (requests_made st) url ps) as [e | r]; cbn in *.
  - rewrite Hfail. eauto.
  - destruct (bad_status r); cbn in *; [eauto |].
    destruct (json_body r) as [v | | e]; [discriminate | eauto |].
    rewrite Hfail. eauto.
Qed.

(** A refused connection is a failed fetch. *)
Example pull_data_from_api_offline :
  pull_data_from_api api_url params world_offline initial_state
  = (Returned PyNone,
     add_log (pull_error "Connection refused")
       (requested api_url initial_state)).
Proof. reflexivity. Qed.

(** A valid body nested too deeply for the decoder: the [RecursionError] of
    [Response.json()] is not a [RequestException], so it leaves the
    fetcher, after the success record has been logged. *)
Example pull_data_from_api_deep_body :
  pull_data_from_api api_url params world_deep_body initial_state
  = (Raised (MkExn RecursionError
       "maximum recursion depth exceeded while decoding a JSON array"),
     add_log (pull_success api_url) (requested api_url initial_state)).
Proof. reflexivity. Qed.

(** C4, as stated, fails: a status outside 200..299 that [raise_for_status]
    accepts (here 300) with a JSON body is returned as data, not as the
    absence-of-data marker. *)
Lemma pull_data_from_api_status_300_returns_data :
  status_code (MkResponse 300 "" (Decoded two_records)) = 300 /\
  http_get world_http_300 0 api_url params
    = HttpResponse (MkResponse 300 "" (Decoded two_records)) /\
  fst (pull_data_from_api api_url params world_http_300 initial_state)
    = Returned two_records /\
  fst (pull_data_from_api api_url params world_http_300 initial_state)
    <> Returned PyNone.
Proof.
  repeat split; try reflexivity.
  vm_compute. discriminate.
Qed.

(** C4 (amended): as long as neither [requests.get] nor [Response.json()]
    raises anything but requests' own exceptions, [pull_data_from_api]
    never raises to its caller; and every 4xx or 5xx status, every
    network-level failure and every body that is not JSON makes it return
    [None] after logging an ERROR record.  (An exception outside
    [RequestException], such as the decoder's [RecursionError] on a deeply
    nested body, is not caught: see [pull_data_from_api_deep_body].) *)
Theorem pull_data_from_api_failure_is_None (url : string)
    (ps : list (string * string)) (env : Env) (st : State) :
  raises_foreign (http_get env (requests_made st) url ps) = false ->
  (exists v st', pull_data_from_api url ps env st = (Returned v, st')) /\
  (fetch_failed (http_get env (requests_made st) url ps) = true ->
   exists msg st1,
     pull_data_from_api url ps env st
       = (Returned PyNone, add_log (pull_error msg) st1)).
Proof.
  intros Hforeign. split; [| apply failed_fetch_returns_None].
  rewrite pull_data_from_api_cases.
  destruct (http_get env (requests_made st) url ps) as [e | r]; cbn in *.
  - destruct (is_RequestException e); [eauto | discriminate].
  - destruct (bad_status r); [eauto |].
    destruct (json_body r) as [v | | e]; eauto.
    destruct (is_RequestException e); [eauto | discriminate].
Qed.

Lemma pull_data_from_api_failure_is_None_witness :
  raises_foreign (http_get world_http_500 (requests_made initial_state)
                    api_url params) = false /\
  ((exists v st',
      pull_data_from_api api_url params world_http_500 initial_state
        = (Returned v, st')) /\
   (fetch_failed (http_get world_http_500 (requests_made initial_state)
                    api_url params) = true ->
    exists msg st1,
      pull_data_from_api api_url params world_http_500 initial_state
        = (Returned PyNone, add_log (pull_error msg) st1))).
Proof.
  split; [reflexivity |].
  apply (pull_data_from_api_failure_is_None api_url params world_http_500
           initial_state).
  reflexivity.
Defined.

(** ** The orchestrator: runs that stop after the first fetch *)

(** When the first fetch hands back a falsy value, [main] logs its
    no-data record and returns; nothing else happens. *)
Lemma main_falsy_payload (env : Env) (st st1 : State) (v : pyval) :
  pull_data_from_api api_url params env st = (Returned v, st1) ->
  truthy v = false ->
  main env st = (Returned tt, add_log no_data_to_process st1).
Proof.
  intros Hpull Hfalsy. unfold main, bind.
  rewrite Hpull, Hfalsy. reflexivity.
Qed.

Lemma last_add_log (r : log_record) (st : State) :
  last (log (add_log r st)) = Some r.
Proof. cbn. apply last_snoc. Qed.

(** C6: when the fetch fails (for example on HTTP 500), the run ends right
    after the fetch: [main] logs the no-data error and returns, the files
    are untouched, and the only traced call is the one HTTP request - no
    file write, no loader call, no connection. *)
Theorem main_stops_when_fetch_fails (env : Env) (st : State) :
  fetch_failed (http_get env (requests_made st) api_url params) = true ->
  exists st',
    main env st = (Returned tt, st') /\
    last (log st') = Some no_data_to_process /\
    files st' = files st /\
    events st' = (events st ++ [EvHttpGet api_url])%list /\
    connections_made st' = connections_made st.
Proof.
  intros Hfail.
  destruct (failed_fetch_returns_None api_url params env st Hfail)
    as (msg & st1 & Hpull).
  pose proof (pull_data_from_api_effects api_url params env st) as Heff.
  rewrite Hpull in Heff. cbn in Heff. destruct Heff as (Hf & He & Hc & _).
  eexists. split; [exact (main_falsy_payload env st _ PyNone Hpull eq_refl) |].
  split; [apply last_add_log |]. cbn. auto.
Qed.

Lemma main_stops_when_fetch_fails_witness :
  fetch_failed (http_get world_http_500 (requests_made initial_state)
                  api_url params) = true /\
  exists st',
    main world_http_500 initial_state = (Returned tt, st') /\
    last (log st') = Some no_data_to_process /\
    files st' = files initial_state /\
    events st' = (events initial_state ++ [EvHttpGet api_url])%list /\
    connections_made st' = connections_made initial_state.
Proof.
  split; [reflexivity |].
  apply (main_stops_when_fetch_fails world_http_500 initial_state).
  reflexivity.
Defined.

(** C10: when the fetch succeeds with an empty payload - the empty array,
    and likewise any other falsy document - the run ends exactly as after a
    failed fetch: [main] logs the same no-data error and returns, the files
    are untouched, and the only traced call is the one HTTP request.  The
    log holds the fetcher's success record followed by the no-data error. *)
Theorem main_empty_payload_is_no_data (env : Env) (st : State)
    (r : response) (v : pyval) :
  http_get env (requests_made st) api_url params = HttpResponse r ->
  bad_status r = false ->
  json_body r = Decoded v ->
  truthy v = false ->
  exists st',
    main env st = (Returned tt, st') /\
    last (log st') = Some no_data_to_process /\
    files st' = files st /\
    events st' = (events st ++ [EvHttpGet api_url])%list /\
    connections_made st' = connections_made st /\
    log st' = (log st ++ [pull_success api_url; no_data_to_process])%list.
Proof.
  intros Hget Hstatus Hbody Hfalsy.
  pose proof (pull_data_from_api_cases api_url params env st) as Hpull.
  rewrite Hget, Hstatus, Hbody in Hpull.
  eexists. split; [exact (main_falsy_payload env st _ v Hpull Hfalsy) |].
  split; [apply last_add_log |].
  cbn. rewrite <- app_assoc. auto.
Qed.

Lemma main_empty_payload_is_no_data_witness :
  http_get world_empty_array (requests_made initial_state) api_url params
    = HttpResponse (MkResponse 200 "" (Decoded (PyList []))) /\
  bad_status (MkResponse 200 "" (Decoded (PyList []))) = false /\
  json_body (MkResponse 200 "" (Decoded (PyList []))) = Decoded (PyList []) /\
  truthy (PyList []) = false /\
  exists st',
    main world_empty_array initial_state = (Returned tt, st') /\
    last (log st') = Some no_data_to_process /\
    files st' = files initial_state /\
    events st' = (events initial_state ++ [EvHttpGet api_url])%list /\
    connections_made st' = connections_made initial_state /\
    log st' = (log initial_state
               ++ [pull_success api_url; no_data_to_process])%list.
Proof.
  split; [reflexivity |]. split; [reflexivity |].
  split; [reflexivity |]. split; [reflexivity |].
  apply (main_empty_payload_is_no_data world_empty_array initial_state
           (MkResponse 200 "" (Decoded (PyList []))) (PyList []));
    reflexivity.
Defined.

(** ** The local writer *)

Section Columns.

Implicit Types (seen ks : list string) (gen : list (list string)).

Lemma add_unseen_elem seen k x :
  x ∈ add_unseen seen k <-> x ∈ seen \/ x = k.
Proof.
  unfold add_unseen. case_bool_decide as Hin.
  - split; [auto | intros [H | ->]; assumption].
  - rewrite elem_of_app, list_elem_of_singleton. reflexivity.
Qed.

Lemma add_unseen_NoDup seen k : NoDup seen -> NoDup (add_unseen seen k).
Proof.
  intros Hnd. unfold add_unseen. case_bool_decide as Hin; [assumption |].
  apply NoDup_app. split; [assumption |]. split.
  - intros x Hx ->%list_elem_of_singleton. contradiction.
  - apply NoDup_singleton.
Qed.

Lemma fold_add_unseen_elem ks : forall seen x,
  x ∈ fold_left add_unseen ks seen <-> x ∈ seen \/ x ∈ ks.
Proof.
  induction ks as [| k ks IH]; intros seen x; cbn.
  - rewrite elem_of_nil. tauto.
  - rewrite IH, add_unseen_elem, elem_of_cons. tauto.
Qed.

Lemma fold_add_unseen_NoDup ks : forall seen,
  NoDup seen -> NoDup (fold_left add_unseen ks seen).
Proof.
  induction ks as [| k ks IH]; intros seen Hnd; cbn; [assumption |].
  apply IH, add_unseen_NoDup, Hnd.
Qed.

Lemma unique_gen_elem gen : forall seen x,
  x ∈ fold_left (fun seen ks => fold_left add_unseen ks seen) gen seen
  <-> x ∈ seen \/ exists ks, ks ∈ gen /\ x ∈ ks.
Proof.
  induction gen as [| ks0 gen IH]; intros seen x; cbn.
  - split; [auto | intros [H | (ks & Hks & _)]; [assumption |]].
    apply elem_of_nil in Hks. contradiction.
  - rewrite IH, fold_add_unseen_elem. split.
    + intros [[H | H] | (ks & Hks & Hx)].
      * left. assumption.
      * right. exists ks0. rewrite elem_of_cons. auto.
      * right. exists ks. rewrite elem_of_cons. auto.
    + intros [H | (ks & Hks & Hx)]; [auto |].
      apply elem_of_cons in Hks as [-> | Hks]; [auto |].
      right. exists ks. auto.
Qed.

Lemma unique_gen_NoDup gen : forall seen,
  NoDup seen ->
  NoDup (fold_left (fun seen ks => fold_left add_unseen ks seen) gen seen).
Proof.
  induction gen as [| ks0 gen IH]; intros seen Hnd; cbn; [assumption |].
  apply IH, fold_add_unseen_NoDup, Hnd.
Qed.

(** The labels are exactly the labels that occur, each once. *)
Lemma fast_unique_multiple_list_gen_elem gen x :
  x ∈ fast_unique_multiple_list_gen gen <-> exists ks, ks ∈ gen /\ x ∈ ks.
Proof.
  unfold fast_unique_multiple_list_gen. rewrite unique_gen_elem.
  rewrite elem_of_nil. tauto.
Qed.

Lemma fast_unique_multiple_list_gen_NoDup gen :
  NoDup (fast_unique_multiple_list_gen gen).
Proof. apply unique_gen_NoDup, NoDup_nil. exact I. Qed.

End Columns.

Lemma lookup_map {A B : Type} (f : A -> B) (l : list A) (i : nat) :
  map f l !! i = option_map f (l !! i).
Proof.
  revert i. induction l as [| a l IH]; intros [| i]; cbn; auto.
Qed.

Lemma dict_get_None (k : string) (d : list (string * pyval)) :
  dict_get k d = None <-> k ∉ dict_keys d.
Proof.
  induction d as [| [k' v] d IH]; cbn.
  - split; [intros _; apply not_elem_of_nil | reflexivity].
  - rewrite not_elem_of_cons. destruct (String.eqb_spec k k') as [-> | Hne].
    + split; [discriminate | intros [H _]; contradiction].
    + rewrite IH. tauto.
Qed.

Lemma as_dicts_PyDict (recs : list (list (string * pyval))) :
  as_dicts (map PyDict recs) = Some recs.
Proof.
  induction recs as [| d recs IH]; cbn; [reflexivity |].
  rewrite IH. reflexivity.
Qed.

Lemma pd_DataFrame_records (recs : list (list (string * pyval)))
    (env : Env) (st : State) :
  recs <> [] ->
  pd_DataFrame (PyList (map PyDict recs)) env st
    = (Returned (frame_of_records recs), st).
Proof.
  destruct recs as [| d recs]; [congruence | intros _].
  cbn [map pd_DataFrame]. rewrite as_dicts_PyDict. reflexivity.
Qed.

(** What a call of [save_data_to_csv] does, by cases on what pandas makes
    of the data and on whether the path can be written.  Whenever the call
    returns, it returns [None]. *)
Lemma save_data_to_csv_cases (data : pyval) (path : string)
    (env : Env) (st : State) :
  save_data_to_csv data path env st =
    match pd_DataFrame data env st with
    | (Returned df, st1) =>
        if bool_decide (path ∈ unwritable env)
        then (Returned None, add_log (save_error "Permission denied") st1)
        else (Returned None, add_log (data_saved path) (written path df st1))
    | (Raised e, st1) =>
        if is_Exception e
        then (Returned None, add_log (save_error (exn_msg e)) st1)
        else (Raised e, st1)
    end.
Proof.
  unfold save_data_to_csv, try_except, bind.
  destruct (pd_DataFrame data env st) as [[df | e] st1].
  - unfold to_csv. fold (written path df st1).
    destruct (bool_decide (path ∈ unwritable env)); reflexivity.
  - destruct (is_Exception e); reflexivity.
Qed.

(** [pd.DataFrame] has no effect of its own. *)
Lemma pd_DataFrame_state (data : pyval) (env : Env) (st : State) :
  snd (pd_DataFrame data env st) = st.
Proof.
  destruct data as [| b | z | s | [| [] items] | entries]; cbn;
    try reflexivity.
  destruct (as_dicts items); reflexivity.
Qed.

(** [save_data_to_csv] never hands a frame back. *)
Lemma save_data_to_csv_no_frame (data : pyval) (path : string)
    (env : Env) (st : State) (df : DataFrame) :
  fst (save_data_to_csv data path env st) <> Returned (Some df).
Proof.
  rewrite save_data_to_csv_cases.
  destruct (pd_DataFrame data env st) as [[df' | e] st1].
  - destruct (bool_decide (path ∈ unwritable env)); cbn; discriminate.
  - destruct (is_Exception e); cbn; discriminate.
Qed.

(** C3, as stated, fails: given [None] and a writable path,
    [save_data_to_csv] returns [None] but it does create the file. *)
Lemma None_payload_creates_file :
  let run := save_data_to_csv PyNone "/work/api_data.csv"
               world_two_records initial_state in
  ~ (files (snd run) = files initial_state /\ fst run = Returned None).
Proof.
  intros run [Hfiles _].
  apply (f_equal (fun m : gmap string CsvFile => m !! "/work/api_data.csv"))
    in Hfiles.
  vm_compute in Hfiles. discriminate.
Qed.

(** C3 (amended): given [None], [save_data_to_csv] returns [None].  Pandas
    makes the empty frame of it; on a writable path the file is created or
    overwritten with the empty table (an empty header row and no data row)
    and an INFO record is logged; on a path that cannot be written the
    files stay as they are and an ERROR record is logged. *)
Theorem save_data_to_csv_on_None (path : string) (env : Env) (st : State) :
  let run := save_data_to_csv PyNone path env st in
  fst run = Returned None /\
  files (snd run) =
    (if bool_decide (path ∈ unwritable env) then files st
     else <[path := MkCsv [] []]> (files st)) /\
  last (log (snd run)) =
    Some (if bool_decide (path ∈ unwritable env)
          then save_error "Permission denied" else data_saved path).
Proof.
  cbv zeta. rewrite save_data_to_csv_cases. cbn [pd_DataFrame ret].
  destruct (bool_decide (path ∈ unwritable env)); cbn [fst snd];
    (split; [reflexivity |]; split; [reflexivity | apply last_add_log]).
Qed.

(** A row of the frame has one cell per column: the record's value under
    that label, or NaN when the record has no such key. *)
Lemma dicts_to_array_row (recs : list (list (string * pyval)))
    (cols : list string) (i : nat) (r : list (string * pyval)) :
  recs !! i = Some r ->
  exists row,
    dicts_to_array recs cols !! i = Some row /\
    length row = length cols /\
    forall j c, cols !! j = Some c ->
      row !! j = Some (cell_of (dict_get c r)).
Proof.
  intros Hr. unfold dicts_to_array. rewrite lookup_map, Hr. cbn.
  eexists. split; [reflexivity |]. split; [apply length_map |].
  intros j c Hc. rewrite lookup_map, Hc. reflexivity.
Qed.

(** C7: from a payload of at least one record, [save_data_to_csv] builds a
    frame whose columns are the union of the records' keys (each label
    once), with one row per record in input order, row i holding record i's
    value under each column and NaN where the record lacks the key; and on
    a writable path it writes a file whose header row is those columns and
    whose data rows are those rows, one per record. *)
Theorem save_data_to_csv_records (recs : list (list (string * pyval)))
    (path : string) (env : Env) (st : State) :
  (0 < length recs)%nat ->
  bool_decide (path ∈ unwritable env) = false ->
  exists df st',
    pd_DataFrame (PyList (map PyDict recs)) env st = (Returned df, st) /\
    save_data_to_csv (PyList (map PyDict recs)) path env st
      = (Returned None, st') /\
    NoDup (columns df) /\
    (forall k, k ∈ columns df <-> exists r, r ∈ recs /\ k ∈ dict_keys r) /\
    length (rows df) = length recs /\
    (forall i r, recs !! i = Some r ->
       exists row,
         rows df !! i = Some row /\
         length row = length (columns df) /\
         forall j c, columns df !! j = Some c ->
           row !! j = Some (match dict_get c r with
                            | Some v => Val v
                            | None => NaN
                            end)) /\
    files st' !! path = Some (MkCsv (columns df) (rows df)) /\
    header_row (MkCsv (columns df) (rows df)) = columns df /\
    length (data_rows (MkCsv (columns df) (rows df))) = length recs.
Proof.
  intros Hlen Hwritable.
  assert (recs <> []) as Hne by (destruct recs; [cbn in Hlen; lia | discriminate]).
  exists (frame_of_records recs). eexists.
  split; [apply pd_DataFrame_records, Hne |].
  split.
  { rewrite save_data_to_csv_cases, (pd_DataFrame_records _ _ _ Hne), Hwritable.
    reflexivity. }
  assert (length (rows (frame_of_records recs)) = length recs) as Hrows.
  { cbn. unfold dicts_to_array. apply length_map. }
  split; [apply fast_unique_multiple_list_gen_NoDup |].
  split.
  { intros k. cbn. rewrite fast_unique_multiple_list_gen_elem. split.
    - intros (ks & Hks & Hk). apply list_elem_of_In, in_map_iff in Hks.
      destruct Hks as (r & <- & Hr). exists r.
      split; [apply list_elem_of_In |]; assumption.
    - intros (r & Hr & Hk). exists (dict_keys r).
      split; [| assumption]. apply list_elem_of_In, in_map, list_elem_of_In, Hr. }
  split; [exact Hrows |].
  split; [intros i r Hr; apply (dicts_to_array_row recs _ i r Hr) |].
  split; [cbn; apply lookup_insert_eq |].
  split; [reflexivity | exact Hrows].
Qed.

Lemma save_data_to_csv_records_witness :
  (0 < length [[("id", PyInt 1); ("val", PyStr "a")];
               [("id", PyInt 2); ("val", PyStr "b")]])%nat /\
  bool_decide ("/work/api_data.csv" ∈ unwritable world_two_records) = false /\
  exists df st',
    pd_DataFrame two_records world_two_records initial_state
      = (Returned df, initial_state) /\
    save_data_to_csv two_records "/work/api_data.csv" world_two_records
        initial_state
      = (Returned None, st') /\
    NoDup (columns df) /\
    (forall k, k ∈ columns df <->
       exists r, r ∈ [[("id", PyInt 1); ("val", PyStr "a")];
                      [("id", PyInt 2); ("val", PyStr "b")]]
                 /\ k ∈ dict_keys r) /\
    length (rows df) = 2%nat /\
    (forall i r,
       [[("id", PyInt 1); ("val", PyStr "a")];
        [("id", PyInt 2); ("val", PyStr "b")]] !! i = Some r ->
       exists row,
         rows df !! i = Some row /\
         length row = length (columns df) /\
         forall j c, columns df !! j = Some c ->
           row !! j = Some (match dict_get c r with
                            | Some v => Val v
                            | None => NaN
                            end)) /\
    files st' !! "/work/api_data.csv" = Some (MkCsv (columns df) (rows df)) /\
    header_row (MkCsv (columns df) (rows df)) = columns df /\
    length (data_rows (MkCsv (columns df) (rows df))) = 2%nat.
Proof.
  split; [cbn; lia |].
  split; [vm_compute; reflexivity |].
  apply (save_data_to_csv_records
           [[("id", PyInt 1); ("val", PyStr "a")];
            [("id", PyInt 2); ("val", PyStr "b")]]
           "/work/api_data.csv" world_two_records initial_state).
  - cbn; lia.
  - vm_compute; reflexivity.
Defined.

(** The header and the rows of the first end-to-end scenario. *)
Example two_records_file :
  files (snd (save_data_to_csv two_records "/work/api_data.csv"
                world_two_records initial_state)) !! "/work/api_data.csv"
  = Some (MkCsv ["id"; "val"]
            [[Val (PyInt 1); Val (PyStr "a")];
             [Val (PyInt 2); Val (PyStr "b")]]).
Proof. vm_compute. reflexivity. Qed.

(** Keys that only some records have: the columns are the union in order of
    first appearance and the gaps are NaN. *)
Example ragged_records_frame :
  pd_DataFrame
    (PyList [PyDict [("a", PyInt 1)];
             PyDict [("b", PyInt 2); ("a", PyInt 3)];
             PyDict [("c", PyNone)]])
    world_two_records initial_state
  = (Returned
       (MkFrame ["a"; "b"; "c"]
          [[Val (PyInt 1); NaN; NaN];
           [Val (PyInt 3); Val (PyInt 2); NaN];
           [NaN; NaN; Val PyNone]]),
     initial_state).
Proof. vm_compute. reflexivity. Qed.

(** ** The warehouse loader *)

(** What a call of [upload_to_snowflake] does, by cases on the answers of
    the driver.  [conn.close()] is reached only when [connect], [cursor()]
    and [cursor.close()] have all succeeded. *)
Lemma upload_to_snowflake_cases (df table_name : pyarg)
    (env : Env) (st : State) :
  upload_to_snowflake df table_name env st =
    let c := connections_made st in
    match sf_connect env (env_credentials env) with
    | Some e => upload_handler e (connected st)
    | None =>
        let st2 := add_event (EvCursor c) (connected st) in
        match sf_cursor env c with
        | Some e => upload_handler e st2
        | None =>
            let st3 := add_event (EvCursorClose c)
                         (add_log (data_uploaded table_name) st2) in
            match sf_cursor_close env c with
            | Some e => upload_handler e st3
            | None =>
                match sf_conn_close env c with
                | Some e => upload_handler e (add_event (EvConnClose c) st3)
                | None => (Returned tt, add_event (EvConnClose c) st3)
                end
            end
        end
    end.
Proof.
  cbv beta iota zeta delta
    [upload_to_snowflake try_except bind os_getenv snowflake_connect
     conn_cursor cursor_close conn_close driver_call emit modify ret
     logging_info logging_log level_enabled].
  fold (env_credentials env). fold (connected st).
  fold (data_uploaded table_name).
  destruct (sf_connect env (env_credentials env)) as [e |]; [reflexivity |].
  destruct (sf_cursor env (connections_made st)) as [e |]; [reflexivity |].
  destruct (sf_cursor_close env (connections_made st)) as [e |];
    [reflexivity |].
  destruct (sf_conn_close env (connections_made st)) as [e |]; reflexivity.
Qed.

Lemma count_events_app (p : event -> bool) (l1 l2 : list event) :
  count_events p (l1 ++ l2) = (count_events p l1 + count_events p l2)%nat.
Proof. unfold count_events. rewrite List.filter_app. apply length_app. Qed.

Lemma is_close_of_same (c : nat) : is_close_of c (EvConnClose c) = true.
Proof. cbn. apply Nat.eqb_refl. Qed.

(** When every driver call succeeds the connection is closed once. *)
Lemma upload_to_snowflake_success_closes_once (df table_name : pyarg)
    (env : Env) (st : State) :
  sf_connect env (env_credentials env) = None ->
  sf_cursor env (connections_made st) = None ->
  sf_cursor_close env (connections_made st) = None ->
  sf_conn_close env (connections_made st) = None ->
  let c := connections_made st in
  let run := upload_to_snowflake df table_name env st in
  fst run = Returned tt /\
  events (snd run) =
    (events st ++ [EvConnect c; EvCursor c; EvCursorClose c; EvConnClose c])%list /\
  close_count c (events (snd run)) = S (close_count c (events st)).
Proof.
  intros H1 H2 H3 H4. cbv zeta.
  rewrite upload_to_snowflake_cases. cbv zeta. rewrite H1, H2, H3, H4.
  set (c := connections_made st). cbn [fst snd].
  assert (events (add_event (EvConnClose c)
            (add_event (EvCursorClose c)
               (add_log (data_uploaded table_name)
                  (add_event (EvCursor c) (connected st)))))
          = (events st ++ [EvConnect c; EvCursor c; EvCursorClose c;
                           EvConnClose c])%list) as Hev.
  { cbn. repeat rewrite <- app_assoc. reflexivity. }
  split; [reflexivity |]. split; [exact Hev |].
  rewrite Hev. unfold close_count. rewrite count_events_app.
  unfold count_events at 2. cbn [List.filter is_close_of].
  rewrite Nat.eqb_refl. cbn. lia.
Qed.

(** C1: the code breaks the claim.  When [connect] succeeds and
    [conn.cursor()] raises, control leaves the [try] block for the handler:
    the call returns after logging the error, and [conn.close()] has not
    been called on the connection that was opened. *)
Theorem upload_to_snowflake_cursor_error_leaks_connection
    (df table_name : pyarg) (env : Env) (st : State) (e : exn) :
  sf_connect env (env_credentials env) = None ->
  sf_cursor env (connections_made st) = Some e ->
  is_Exception e = true ->
  let c := connections_made st in
  let run := upload_to_snowflake df table_name env st in
  fst run = Returned tt /\
  last (log (snd run)) = Some (upload_error (exn_msg e)) /\
  events (snd run) = (events st ++ [EvConnect c; EvCursor c])%list /\
  close_count c (events (snd run)) = close_count c (events st).
Proof.
  intros Hconnect Hcursor Hexn. cbv zeta.
  rewrite upload_to_snowflake_cases. cbv zeta. rewrite Hconnect, Hcursor.
  set (c := connections_made st).
  unfold upload_handler. rewrite Hexn. cbn [fst snd].
  assert (events (add_log (upload_error (exn_msg e))
            (add_event (EvCursor c) (connected st)))
          = (events st ++ [EvConnect c; EvCursor c])%list) as Hev.
  { cbn. rewrite <- app_assoc. reflexivity. }
  split; [reflexivity |]. split; [apply last_add_log |].
  split; [exact Hev |].
  rewrite Hev. unfold close_count. rewrite count_events_app.
  cbn. lia.
Qed.

Lemma upload_to_snowflake_cursor_error_leaks_connection_witness :
  sf_connect world_cursor_fails (env_credentials world_cursor_fails) = None /\
  sf_cursor world_cursor_fails (connections_made initial_state)
    = Some (MkExn DatabaseError "Connection is closed") /\
  is_Exception (MkExn DatabaseError "Connection is closed") = true /\
  let run := upload_to_snowflake (ArgFrame None) (ArgStr "API_DATA_TABLE")
               world_cursor_fails initial_state in
  fst run = Returned tt /\
  last (log (snd run)) = Some (upload_error "Connection is closed") /\
  events (snd run) = [EvConnect 0; EvCursor 0] /\
  close_count 0 (events (snd run)) = 0%nat.
Proof.
  split; [reflexivity |]. split; [reflexivity |]. split; [reflexivity |].
  apply (upload_to_snowflake_cursor_error_leaks_connection
           (ArgFrame None) (ArgStr "API_DATA_TABLE") world_cursor_fails
           initial_state (MkExn DatabaseError "Connection is closed"));
    reflexivity.
Defined.

(** ** The orchestrator: complete runs *)

Lemma no_connect_refl (st : State) : no_connect st st.
Proof. split; reflexivity. Qed.

Lemma no_connect_trans (st1 st2 st3 : State) :
  no_connect st1 st2 -> no_connect st2 st3 -> no_connect st1 st3.
Proof. intros [H1 H2] [H3 H4]. split; congruence. Qed.

Lemma no_connect_add_log (r : log_record) (st : State) :
  no_connect st (add_log r st).
Proof. split; reflexivity. Qed.

Lemma no_connect_add_event (ev : event) (st : State) :
  is_connect ev = false -> no_connect st (add_event ev st).
Proof.
  intros Hev. split; [reflexivity |]. cbn [events add_event].
  rewrite count_events_app. unfold count_events at 2. cbn [List.filter].
  rewrite Hev. cbn. lia.
Qed.

Lemma pull_data_from_api_no_connect (url : string)
    (ps : list (string * string)) (env : Env) (st : State) :
  no_connect st (snd (pull_data_from_api url ps env st)).
Proof.
  destruct (pull_data_from_api_effects url ps env st) as (_ & Hev & Hc & _).
  split; [exact Hc |]. rewrite Hev, count_events_app. cbn. lia.
Qed.

Lemma save_data_to_csv_no_connect (data : pyval) (path : string)
    (env : Env) (st : State) :
  no_connect st (snd (save_data_to_csv data path env st)).
Proof.
  rewrite save_data_to_csv_cases.
  pose proof (pd_DataFrame_state data env st) as Hst.
  destruct (pd_DataFrame data env st) as [[df | e] st1]; cbn [snd] in Hst;
    subst st1.
  - destruct (bool_decide (path ∈ unwritable env)); cbn [snd].
    + apply no_connect_add_log.
    + eapply no_connect_trans; [| apply no_connect_add_log].
      unfold written.
      eapply no_connect_trans; [| apply no_connect_add_event; reflexivity].
      split; reflexivity.
  - destruct (is_Exception e); cbn [snd];
      [apply no_connect_add_log | apply no_connect_refl].
Qed.

Lemma main_second_pass_no_connect (env : Env) (st : State) :
  no_connect st (snd (main_second_pass env st)).
Proof.
  unfold main_second_pass, bind.
  pose proof (pull_data_from_api_no_connect api_url params env st) as H1.
  destruct (pull_data_from_api api_url params env st) as [[v | e] st1];
    cbn [snd] in *; [| exact H1].
  destruct (truthy v).
  - unfold os_getcwd.
    pose proof (save_data_to_csv_no_connect v
                  (os_path_join (cwd env) "api_data.csv") env st1) as H2.
    destruct (save_data_to_csv v (os_path_join (cwd env) "api_data.csv")
                env st1) as [[o | e] st2]; cbn [snd] in *;
      [| eapply no_connect_trans; eassumption].
    unfold os_getenv.
    destruct (negb (truthy_opt_str (environ env !! "GCS_BUCKET_NAME"))).
    + eapply no_connect_trans; [eassumption |].
      eapply no_connect_trans; [eassumption |]. apply no_connect_add_log.
    + eapply no_connect_trans; [eassumption |].
      eapply no_connect_trans; [eassumption |].
      apply no_connect_add_event. reflexivity.
  - eapply no_connect_trans; [eassumption |]. apply no_connect_add_log.
Qed.

(** No run of [main] ever reaches the driver: the first loader call is
    guarded by [df is not None], which never holds, and the second one has
    the wrong number of arguments and fails before the body starts. *)
Lemma main_no_connect (env : Env) (st : State) :
  no_connect st (snd (main env st)).
Proof.
  unfold main, bind.
  pose proof (pull_data_from_api_no_connect api_url params env st) as H1.
  destruct (pull_data_from_api api_url params env st) as [[v | e] st1];
    cbn [snd] in *; [| exact H1].
  destruct (truthy v).
  - unfold os_getcwd.
    pose proof (save_data_to_csv_no_connect v
                  (os_path_join (cwd env) "api_data.csv") env st1) as H2.
    pose proof (save_data_to_csv_no_frame v
                  (os_path_join (cwd env) "api_data.csv") env st1) as Hnone.
    destruct (save_data_to_csv v (os_path_join (cwd env) "api_data.csv")
                env st1) as [[[df |] | e] st2]; cbn [fst snd] in *.
    + exfalso. apply (Hnone df). reflexivity.
    + unfold ret.
      eapply no_connect_trans; [eassumption |].
      eapply no_connect_trans; [eassumption |].
      apply main_second_pass_no_connect.
    + eapply no_connect_trans; eassumption.
  - eapply no_connect_trans; [eassumption |]. apply no_connect_add_log.
Qed.

(** C9: the code breaks the claim.  The records are serialised and the file
    is written, yet the call evaluates to [None], the value the failure
    handler returns: the [try] block of [save_data_to_csv] ends without a
    [return df]. *)
Theorem save_data_to_csv_success_returns_None :
  let run := save_data_to_csv two_records "/work/api_data.csv"
               world_two_records initial_state in
  files (snd run) !! "/work/api_data.csv" = Some (csv_of two_records_frame) /\
  log (snd run) = [data_saved "/work/api_data.csv"] /\
  fst run = Returned None.
Proof. vm_compute. repeat split; reflexivity. Qed.

(** C2: the code breaks the claim.  The API answers every request with the
    two records and the path is writable.  The run fetches twice and writes
    the file twice; because [save_data_to_csv] returned [None] the guarded
    loader call is skipped, and the second pass stops at the unset
    [GCS_BUCKET_NAME]: the loader is not called at all. *)
Theorem main_two_records_never_loads :
  let run := main world_two_records initial_state in
  fst run = Returned tt /\
  events (snd run) =
    [EvHttpGet api_url; EvFileWrite "/work/api_data.csv";
     EvHttpGet api_url; EvFileWrite "/work/api_data.csv"] /\
  count_events is_http_get (events (snd run)) = 2%nat /\
  count_events is_file_write (events (snd run)) = 2%nat /\
  count_events is_loader_call (events (snd run)) = 0%nat /\
  count_events is_connect (events (snd run)) = 0%nat.
Proof. vm_compute. repeat split; reflexivity. Qed.

(** C5: the code breaks the claim.  The output path cannot be written, so
    both calls of [save_data_to_csv] fail and no file exists; the second
    pass discards the result of the save and, [GCS_BUCKET_NAME] being set,
    goes on to call the loader. *)
Theorem main_calls_loader_after_failed_write :
  let run := main world_locked_bucket initial_state in
  files (snd run) = ∅ /\
  log (snd run) =
    [pull_success api_url; save_error "Permission denied";
     pull_success api_url; save_error "Permission denied"] /\
  events (snd run) =
    [EvHttpGet api_url; EvHttpGet api_url; EvLoaderCall 3].
Proof. vm_compute. repeat split; reflexivity. Qed.

(** C8: the code breaks the claim.  With data fetched and
    [GCS_BUCKET_NAME] set, the second pass calls [upload_to_snowflake]
    with three arguments; the [TypeError] of that call is raised in [main]
    itself, outside every [try], and ends the run. *)
Theorem main_raises_TypeError :
  fst (main world_bucket initial_state) =
    Raised (MkExn TypeError
      "upload_to_snowflake() takes 2 positional arguments but 3 were given").
Proof. vm_compute. reflexivity. Qed.

(** * Further properties *)

(** ** The fetcher *)

(** X1: when the status is outside 400..599 and [Response.json()] returns
    a document, that document is handed to the caller unchanged; one INFO
    record is logged, one request is traced and no data file changes.  (A
    body on which the decoder raises is another case: see X3 and
    [pull_data_from_api_deep_body].) *)
Theorem pull_data_from_api_returns_payload (url : string)
    (ps : list (string * string)) (env : Env) (st : State)
    (r : response) (v : pyval) :
  http_get env (requests_made st) url ps = HttpResponse r ->
  bad_status r = false ->
  json_body r = Decoded v ->
  let run := pull_data_from_api url ps env st in
  fst run = Returned v /\
  log (snd run) = (log st ++ [pull_success url])%list /\
  files (snd run) = files st /\
  events (snd run) = (events st ++ [EvHttpGet url])%list.
Proof.
  intros Hget Hstatus Hbody. cbv zeta.
  rewrite pull_data_from_api_cases, Hget, Hstatus, Hbody.
  repeat split.
Qed.

Lemma pull_data_from_api_returns_payload_witness :
  http_get world_two_records (requests_made initial_state) api_url params
    = HttpResponse (MkResponse 200 "" (Decoded two_records)) /\
  bad_status (MkResponse 200 "" (Decoded two_records)) = false /\
  json_body (MkResponse 200 "" (Decoded two_records)) = Decoded two_records /\
  let run := pull_data_from_api api_url params world_two_records
               initial_state in
  fst run = Returned two_records /\
  log (snd run) = (log initial_state ++ [pull_success api_url])%list /\
  files (snd run) = files initial_state /\
  events (snd run) = (events initial_state ++ [EvHttpGet api_url])%list.
Proof.
  split; [reflexivity |]. split; [reflexivity |]. split; [reflexivity |].
  apply (pull_data_from_api_returns_payload api_url params world_two_records
           initial_state (MkResponse 200 "" (Decoded two_records)) two_records);
    reflexivity.
Defined.

(** X2: an exception of [requests.get] that does not derive from
    [RequestException] is not caught: it reaches the caller, and the
    fetcher logs nothing. *)
Theorem pull_data_from_api_foreign_exception_propagates (url : string)
    (ps : list (string * string)) (env : Env) (st : State) (e : exn) :
  http_get env (requests_made st) url ps = HttpRaises e ->
  is_RequestException e = false ->
  let run := pull_data_from_api url ps env st in
  fst run = Raised e /\ log (snd run) = log st.
Proof.
  intros Hget Hforeign. cbv zeta.
  rewrite pull_data_from_api_cases, Hget, Hforeign. split; reflexivity.
Qed.

Lemma pull_data_from_api_foreign_exception_propagates_witness :
  http_get world_interrupted (requests_made initial_state) api_url params
    = HttpRaises (MkExn KeyboardInterrupt "") /\
  is_RequestException (MkExn KeyboardInterrupt "") = false /\
  let run := pull_data_from_api api_url params world_interrupted
               initial_state in
  fst run = Raised (MkExn KeyboardInterrupt "") /\
  log (snd run) = log initial_state.
Proof.
  split; [reflexivity |]. split; [reflexivity |].
  apply (pull_data_from_api_foreign_exception_propagates api_url params
           world_interrupted initial_state (MkExn KeyboardInterrupt ""));
    reflexivity.
Defined.

(** X3: the success record is logged before the body is decoded.  When the
    status passes and the body is not JSON, the log receives the INFO record
    "Successfully pulled data" followed by the ERROR record, and [None] is
    returned. *)
Theorem pull_data_from_api_malformed_body (url : string)
    (ps : list (string * string)) (env : Env) (st : State) (r : response) :
  http_get env (requests_made st) url ps = HttpResponse r ->
  bad_status r = false ->
  json_body r = NotJson ->
  let run := pull_data_from_api url ps env st in
  fst run = Returned PyNone /\
  log (snd run) =
    (log st ++ [pull_success url; pull_error "Expecting value"])%list.
Proof.
  intros Hget Hstatus Hbody. cbv zeta.
  rewrite pull_data_from_api_cases, Hget, Hstatus, Hbody.
  split; [reflexivity |]. cbn. rewrite <- app_assoc. reflexivity.
Qed.

Lemma pull_data_from_api_malformed_body_witness :
  http_get world_not_json (requests_made initial_state) api_url params
    = HttpResponse (MkResponse 200 "" NotJson) /\
  bad_status (MkResponse 200 "" NotJson) = false /\
  json_body (MkResponse 200 "" NotJson) = NotJson /\
  let run := pull_data_from_api api_url params world_not_json
               initial_state in
  fst run = Returned PyNone /\
  log (snd run) =
    (log initial_state
     ++ [pull_success api_url; pull_error "Expecting value"])%list.
Proof.
  split; [reflexivity |]. split; [reflexivity |]. split; [reflexivity |].
  apply (pull_data_from_api_malformed_body api_url params world_not_json
           initial_state (MkResponse 200 "" NotJson));
    reflexivity.
Defined.

(** X4: whatever the world answers, one call of the fetcher issues exactly
    one request, appends at most two records to the log, and leaves the
    files and the driver alone. *)
Theorem pull_data_from_api_single_request (url : string)
    (ps : list (string * string)) (env : Env) (st : State) :
  let st' := snd (pull_data_from_api url ps env st) in
  requests_made st' = S (requests_made st) /\
  events st' = (events st ++ [EvHttpGet url])%list /\
  files st' = files st /\
  connections_made st' = connections_made st /\
  exists recs,
    log st' = (log st ++ recs)%list /\ (length recs <= 2)%nat.
Proof.
  cbv zeta.
  destruct (pull_data_from_api_effects url ps env st) as (Hf & He & Hc & Hr).
  repeat (split; [assumption |]).
  rewrite pull_data_from_api_cases.
  destruct (http_get env (requests_made st) url ps) as [e | r].
  - destruct (is_RequestException e); cbn.
    + exists [pull_error (exn_msg e)]. split; [reflexivity | cbn; lia].
    + exists []. split; [symmetry; apply app_nil_r | cbn; lia].
  - destruct (bad_status r); cbn.
    + exists [pull_error (status_error_msg r)].
      split; [reflexivity | cbn; lia].
    + destruct (json_body r) as [v | | e]; cbn.
      * exists [pull_success url]. split; [reflexivity | cbn; lia].
      * exists [pull_success url; pull_error "Expecting value"].
        split; [rewrite <- app_assoc; reflexivity | cbn; lia].
      * destruct (is_RequestException e); cbn.
        -- exists [pull_success url; pull_error (exn_msg e)].
           split; [rewrite <- app_assoc; reflexivity | cbn; lia].
        -- exists [pull_success url]. split; [reflexivity | cbn; lia].
Qed.

(** ** The local writer *)

(** [pd.DataFrame] reads nothing from the program state. *)
Lemma pd_DataFrame_pure (data : pyval) (env : Env) (st st' : State) :
  fst (pd_DataFrame data env st) = fst (pd_DataFrame data env st').
Proof.
  destruct data as [| b | z | s | [| [] items] | entries]; cbn;
    try reflexivity.
  destruct (as_dicts items); reflexivity.
Qed.

Lemma pd_DataFrame_run (data : pyval) (env : Env) (st : State) :
  pd_DataFrame data env st = (fst (pd_DataFrame data env st), st).
Proof.
  rewrite <- (pd_DataFrame_state data env st) at 3.
  destruct (pd_DataFrame data env st); reflexivity.
Qed.

(** [save_data_to_csv] by cases on the frame pandas builds, which may be
    computed in any state. *)
Lemma save_data_to_csv_by_frame (data : pyval) (path : string)
    (env : Env) (st st0 : State) :
  save_data_to_csv data path env st =
    match fst (pd_DataFrame data env st0) with
    | Returned df =>
        if bool_decide (path ∈ unwritable env)
        then (Returned None, add_log (save_error "Permission denied") st)
        else (Returned None, add_log (data_saved path) (written path df st))
    | Raised e =>
        if is_Exception e
        then (Returned None, add_log (save_error (exn_msg e)) st)
        else (Raised e, st)
    end.
Proof.
  rewrite save_data_to_csv_cases, pd_DataFrame_run.
  rewrite (pd_DataFrame_pure data env st st0).
  destruct (fst (pd_DataFrame data env st0)); reflexivity.
Qed.

(** X5: on a path that cannot be written, [save_data_to_csv] changes no
    file and traces no write, whatever the data; when pandas did build a
    frame the call returns [None] with the ERROR record of the failed write
    as the last log record. *)
Theorem save_data_to_csv_unwritable (data : pyval) (path : string)
    (env : Env) (st : State) :
  bool_decide (path ∈ unwritable env) = true ->
  let run := save_data_to_csv data path env st in
  files (snd run) = files st /\
  events (snd run) = events st /\
  forall df, fst (pd_DataFrame data env st) = Returned df ->
    fst run = Returned None /\
    last (log (snd run)) = Some (save_error "Permission denied").
Proof.
  intros Hlocked. cbv zeta.
  rewrite save_data_to_csv_cases, pd_DataFrame_run, Hlocked.
  destruct (fst (pd_DataFrame data env st)) as [df | e].
  - cbn [fst snd]. split; [reflexivity |]. split; [reflexivity |].
    intros df' _. split; [reflexivity | apply last_add_log].
  - destruct (is_Exception e); cbn [fst snd];
      (split; [reflexivity |]; split; [reflexivity |]; intros df' [=]).
Qed.

Lemma save_data_to_csv_unwritable_witness :
  bool_decide ("/work/api_data.csv" ∈ unwritable world_locked_bucket) = true /\
  let run := save_data_to_csv two_records "/work/api_data.csv"
               world_locked_bucket initial_state in
  files (snd run) = files initial_state /\
  events (snd run) = events initial_state /\
  forall df,
    fst (pd_DataFrame two_records world_locked_bucket initial_state)
      = Returned df ->
    fst run = Returned None /\
    last (log (snd run)) = Some (save_error "Permission denied").
Proof.
  split; [vm_compute; reflexivity |].
  apply (save_data_to_csv_unwritable two_records "/work/api_data.csv"
           world_locked_bucket initial_state).
  vm_compute; reflexivity.
Defined.

(** X6: what a call of [save_data_to_csv] writes.  It appends at most one
    record to the log (which the logging configuration sends to the console
    and to [script.log]); apart from that it writes no file but the one at
    [file_path].  It makes no request and no driver call, and the only call
    it can trace is the write of [file_path]. *)
Theorem save_data_to_csv_touches_only_path (data : pyval) (path : string)
    (env : Env) (st : State) :
  let st' := snd (save_data_to_csv data path env st) in
  (exists recs,
     log st' = (log st ++ recs)%list /\ (length recs <= 1)%nat) /\
  delete path (files st') = delete path (files st) /\
  requests_made st' = requests_made st /\
  connections_made st' = connections_made st /\
  (events st' = events st \/
   events st' = (events st ++ [EvFileWrite path])%list).
Proof.
  cbv zeta. rewrite save_data_to_csv_cases, pd_DataFrame_run.
  destruct (fst (pd_DataFrame data env st)) as [df | e].
  - destruct (bool_decide (path ∈ unwritable env)); cbn [snd].
    + split; [eexists; split; [reflexivity | cbn; lia] |].
      repeat split. left. reflexivity.
    + split; [eexists; split; [reflexivity | cbn; lia] |].
      cbn. split; [apply delete_insert_eq |].
      split; [reflexivity |]. split; [reflexivity |]. right. reflexivity.
  - destruct (is_Exception e); cbn [snd].
    + split; [eexists; split; [reflexivity | cbn; lia] |].
      repeat split. left. reflexivity.
    + split; [exists []; split; [symmetry; apply app_nil_r | cbn; lia] |].
      repeat split. left. reflexivity.
Qed.

(** X7: saving the same data to the same path a second time leaves the
    files as the first save left them. *)
Theorem save_data_to_csv_twice (data : pyval) (path : string)
    (env : Env) (st : State) :
  let st1 := snd (save_data_to_csv data path env st) in
  files (snd (save_data_to_csv data path env st1)) = files st1.
Proof.
  cbv zeta.
  rewrite (save_data_to_csv_by_frame data path env _ st).
  rewrite (save_data_to_csv_by_frame data path env st st).
  destruct (fst (pd_DataFrame data env st)) as [df | e].
  - destruct (bool_decide (path ∈ unwritable env)); cbn [snd];
      [reflexivity |].
    cbn. apply insert_insert_eq.
  - destruct (is_Exception e); reflexivity.
Qed.

(** X8: a payload that is a bare scalar (a number, a string, a boolean) is
    rejected by pandas; the error is logged, [None] is returned and nothing
    is written. *)
Theorem save_data_to_csv_scalar (data : pyval) (path : string)
    (env : Env) (st : State) :
  is_scalar data = true ->
  save_data_to_csv data path env st =
    (Returned None,
     add_log (save_error "DataFrame constructor not properly called!") st).
Proof.
  intros Hscalar. rewrite save_data_to_csv_cases.
  destruct data; try discriminate; reflexivity.
Qed.

Lemma save_data_to_csv_scalar_witness :
  is_scalar (PyInt 5) = true /\
  save_data_to_csv (PyInt 5) "/work/api_data.csv" world_two_records
      initial_state =
    (Returned None,
     add_log (save_error "DataFrame constructor not properly called!")
       initial_state).
Proof.
  split; [reflexivity |].
  apply (save_data_to_csv_scalar (PyInt 5) "/work/api_data.csv"
           world_two_records initial_state).
  reflexivity.
Defined.

(** X10: the empty list is not rejected: on a writable path it is written
    as the empty table, replacing whatever the file held, and [None] is
    returned. *)
Theorem save_data_to_csv_empty_list (path : string) (env : Env) (st : State) :
  bool_decide (path ∈ unwritable env) = false ->
  let run := save_data_to_csv (PyList []) path env st in
  fst run = Returned None /\
  files (snd run) !! path = Some (MkCsv [] []) /\
  log (snd run) = (log st ++ [data_saved path])%list.
Proof.
  intros Hwritable. cbv zeta.
  rewrite save_data_to_csv_cases. cbn [pd_DataFrame ret]. rewrite Hwritable.
  cbn [fst snd]. split; [reflexivity |].
  split; [cbn; apply lookup_insert_eq | reflexivity].
Qed.

Lemma save_data_to_csv_empty_list_witness :
  bool_decide ("/work/api_data.csv" ∈ unwritable world_two_records) = false /\
  let run := save_data_to_csv (PyList []) "/work/api_data.csv"
               world_two_records initial_state in
  fst run = Returned None /\
  files (snd run) !! "/work/api_data.csv" = Some (MkCsv [] []) /\
  log (snd run) = (log initial_state ++ [data_saved "/work/api_data.csv"])%list.
Proof.
  split; [vm_compute; reflexivity |].
  apply (save_data_to_csv_empty_list "/work/api_data.csv" world_two_records
           initial_state).
  vm_compute; reflexivity.
Defined.

(** X11: [save_data_to_csv] never raises an [Exception] and never returns
    a frame.  Either it returns [None], having appended exactly one record
    to the log, or pandas raised something outside [Exception], which
    passes through with the state untouched. *)
Theorem save_data_to_csv_outcomes (data : pyval) (path : string)
    (env : Env) (st : State) :
  let run := save_data_to_csv data path env st in
  (fst run = Returned None /\
   exists rec, log (snd run) = (log st ++ [rec])%list) \/
  (exists e, fst run = Raised e /\ is_Exception e = false /\ snd run = st).
Proof.
  cbv zeta. rewrite save_data_to_csv_cases, pd_DataFrame_run.
  destruct (fst (pd_DataFrame data env st)) as [df | e].
  - left. destruct (bool_decide (path ∈ unwritable env)); cbn [fst snd];
      (split; [reflexivity | eexists; reflexivity]).
  - destruct (is_Exception e) eqn:Hexn; cbn [fst snd].
    + left. split; [reflexivity | eexists; reflexivity].
    + right. exists e. auto.
Qed.

Lemma fold_add_unseen_fresh (ks : list string) : forall seen : list string,
  NoDup ks -> (forall k, k ∈ ks -> k ∉ seen) ->
  fold_left add_unseen ks seen = (seen ++ ks)%list.
Proof.
  induction ks as [| k ks IH]; intros seen Hnd Hfresh; cbn.
  - symmetry. apply app_nil_r.
  - apply NoDup_cons in Hnd as [Hk Hnd].
    unfold add_unseen at 2. rewrite bool_decide_eq_false_2.
    + rewrite IH; [rewrite <- app_assoc; reflexivity | assumption |].
      intros k' Hk'. rewrite not_elem_of_app, list_elem_of_singleton.
      split; [apply Hfresh; rewrite elem_of_cons; auto |].
      intros ->. contradiction.
    + apply Hfresh. rewrite elem_of_cons. auto.
Qed.

Lemma fold_add_unseen_known (ks : list string) : forall seen : list string,
  (forall k, k ∈ ks -> k ∈ seen) -> fold_left add_unseen ks seen = seen.
Proof.
  induction ks as [| k ks IH]; intros seen Hknown; cbn; [reflexivity |].
  unfold add_unseen at 2. rewrite bool_decide_eq_true_2.
  - apply IH. intros k' Hk'. apply Hknown. rewrite elem_of_cons. auto.
  - apply Hknown. rewrite elem_of_cons. auto.
Qed.

Lemma unique_gen_known (gen : list (list string)) : forall seen : list string,
  (forall ks, ks ∈ gen -> forall k, k ∈ ks -> k ∈ seen) ->
  fold_left (fun seen ks => fold_left add_unseen ks seen) gen seen = seen.
Proof.
  induction gen as [| ks gen IH]; intros seen Hknown; cbn; [reflexivity |].
  rewrite fold_add_unseen_known.
  - apply IH. intros ks' Hks'. apply Hknown. rewrite elem_of_cons. auto.
  - apply Hknown. rewrite elem_of_cons. auto.
Qed.

Lemma uniform_records_columns (r : list (string * pyval))
    (rest : list (list (string * pyval))) :
  uniform_records r rest = true ->
  columns (frame_of_records (r :: rest)) = dict_keys r.
Proof.
  unfold uniform_records. intros [Hnd Hrest]%andb_prop.
  apply bool_decide_eq_true in Hnd.
  cbn [frame_of_records columns map]. unfold fast_unique_multiple_list_gen.
  cbn [fold_left].
  rewrite (fold_add_unseen_fresh _ [] Hnd);
    [| intros k _; apply not_elem_of_nil].
  cbn [app]. apply unique_gen_known.
  intros ks Hks k Hk.
  apply list_elem_of_In, in_map_iff in Hks. destruct Hks as (r' & <- & Hr').
  rewrite forallb_forall in Hrest. specialize (Hrest r' Hr').
  rewrite forallb_forall in Hrest.
  apply list_elem_of_In in Hk. specialize (Hrest k Hk).
  apply bool_decide_eq_true in Hrest. exact Hrest.
Qed.

Lemma own_values_row (r : list (string * pyval)) :
  NoDup (dict_keys r) ->
  map (fun col => cell_of (dict_get col r)) (dict_keys r)
  = map (fun kv => Val (snd kv)) r.
Proof.
  induction r as [| [k v] r IH]; cbn; intros Hnd; [reflexivity |].
  apply NoDup_cons in Hnd as [Hk Hnd].
  rewrite String.eqb_refl. cbn. f_equal.
  rewrite <- (IH Hnd). apply map_ext_in. intros c Hc.
  destruct (String.eqb_spec c k) as [-> | _]; [| reflexivity].
  exfalso. apply Hk, list_elem_of_In, Hc.
Qed.

(** X12: when the first record lists each of its keys once and no later
    record brings a new key, the header of the file written is exactly the
    first record's keys in the first record's order, the first data row is
    the first record's values in that order, and there is one data row per
    record. *)
Theorem save_data_to_csv_uniform_header (r : list (string * pyval))
    (rest : list (list (string * pyval))) (path : string)
    (env : Env) (st : State) :
  uniform_records r rest = true ->
  bool_decide (path ∈ unwritable env) = false ->
  exists csv,
    files (snd (save_data_to_csv (PyList (map PyDict (r :: rest))) path
                  env st)) !! path = Some csv /\
    header_row csv = dict_keys r /\
    data_rows csv !! 0%nat = Some (map (fun kv => Val (snd kv)) r) /\
    length (data_rows csv) = S (length rest).
Proof.
  intros Huniform Hwritable.
  pose proof (uniform_records_columns r rest Huniform) as Hcols.
  rewrite save_data_to_csv_cases, pd_DataFrame_records by discriminate.
  rewrite Hwritable. cbn [snd].
  exists (csv_of (frame_of_records (r :: rest))).
  split; [cbn; apply lookup_insert_eq |].
  split; [exact Hcols |].
  split.
  - cbn [csv_of data_rows]. cbn [frame_of_records rows].
    change (fast_unique_multiple_list_gen (map dict_keys (r :: rest)))
      with (columns (frame_of_records (r :: rest))).
    rewrite Hcols. cbn [dicts_to_array map lookup list_lookup].
    f_equal. apply own_values_row.
    unfold uniform_records in Huniform.
    apply andb_prop in Huniform as [Hnd _].
    apply bool_decide_eq_true in Hnd. exact Hnd.
  - cbn. unfold dicts_to_array. rewrite length_map. reflexivity.
Qed.

Lemma save_data_to_csv_uniform_header_witness :
  uniform_records [("id", PyInt 1); ("val", PyStr "a")]
    [[("val", PyStr "b"); ("id", PyInt 2)]] = true /\
  bool_decide ("/work/api_data.csv" ∈ unwritable world_two_records) = false /\
  exists csv,
    files (snd (save_data_to_csv
                  (PyList (map PyDict
                     [[("id", PyInt 1); ("val", PyStr "a")];
                      [("val", PyStr "b"); ("id", PyInt 2)]]))
                  "/work/api_data.csv" world_two_records initial_state))
      !! "/work/api_data.csv" = Some csv /\
    header_row csv = dict_keys [("id", PyInt 1); ("val", PyStr "a")] /\
    data_rows csv !! 0%nat
      = Some (map (fun kv => Val (snd kv))
                [("id", PyInt 1); ("val", PyStr "a")]) /\
    length (data_rows csv) = S (length [[("val", PyStr "b"); ("id", PyInt 2)]]).
Proof.
  split; [vm_compute; reflexivity |].
  split; [vm_compute; reflexivity |].
  apply (save_data_to_csv_uniform_header
           [("id", PyInt 1); ("val", PyStr "a")]
           [[("val", PyStr "b"); ("id", PyInt 2)]]
           "/work/api_data.csv" world_two_records initial_state).
  - vm_compute; reflexivity.
  - vm_compute; reflexivity.
Defined.

(** ** The warehouse loader *)

(** X13: the data argument plays no part in what [upload_to_snowflake]
    does: with any two values for [df] the call gives the same result and
    the same state.  (The body holds no insert.) *)
Theorem upload_to_snowflake_ignores_df (df df' table_name : pyarg)
    (env : Env) (st : State) :
  upload_to_snowflake df table_name env st
  = upload_to_snowflake df' table_name env st.
Proof. rewrite !upload_to_snowflake_cases. reflexivity. Qed.

Lemma upload_handler_outcomes (e : exn) (st : State) :
  fst (upload_handler e st) = Returned tt \/
  (fst (upload_handler e st) = Raised e /\ is_Exception e = false).
Proof.
  unfold upload_handler. destruct (is_Exception e); cbn; auto.
Qed.

(** X14: [upload_to_snowflake] never raises an [Exception] to its caller:
    it returns, or what it raises is outside [Exception]. *)
Theorem upload_to_snowflake_swallows_exceptions (df table_name : pyarg)
    (env : Env) (st : State) :
  let run := upload_to_snowflake df table_name env st in
  fst run = Returned tt \/
  exists e, fst run = Raised e /\ is_Exception e = false.
Proof.
  cbv zeta. rewrite upload_to_snowflake_cases. cbv zeta.
  destruct (sf_connect env (env_credentials env)) as [e |].
  { destruct (upload_handler_outcomes e (connected st)); eauto. }
  destruct (sf_cursor env (connections_made st)) as [e |].
  { destruct (upload_handler_outcomes e
                (add_event (EvCursor (connections_made st)) (connected st)));
      eauto. }
  destruct (sf_cursor_close env (connections_made st)) as [e |].
  { match goal with
    | |- context [upload_handler e ?s] =>
        destruct (upload_handler_outcomes e s); eauto
    end. }
  destruct (sf_conn_close env (connections_made st)) as [e |].
  { match goal with
    | |- context [upload_handler e ?s] =>
        destruct (upload_handler_outcomes e s); eauto
    end. }
  left. reflexivity.
Qed.

Lemma upload_handler_state (e : exn) (st : State) :
  files (snd (upload_handler e st)) = files st /\
  requests_made (snd (upload_handler e st)) = requests_made st /\
  connections_made (snd (upload_handler e st)) = connections_made st /\
  events (snd (upload_handler e st)) = events st.
Proof.
  unfold upload_handler. destruct (is_Exception e); cbn; auto.
Qed.

(** The calls one run of the loader traces, by cases on the driver. *)
Lemma upload_to_snowflake_events (df table_name : pyarg)
    (env : Env) (st : State) :
  let c := connections_made st in
  let st' := snd (upload_to_snowflake df table_name env st) in
  files st' = files st /\
  requests_made st' = requests_made st /\
  connections_made st' = S c /\
  events st' =
    (events st ++
     EvConnect c ::
     match sf_connect env (env_credentials env) with
     | Some _ => []
     | None =>
         EvCursor c ::
         match sf_cursor env c with
         | Some _ => []
         | None =>
             EvCursorClose c ::
             match sf_cursor_close env c with
             | Some _ => []
             | None => [EvConnClose c]
             end
         end
     end)%list.
Proof.
  cbv zeta. rewrite upload_to_snowflake_cases. cbv zeta.
  destruct (sf_connect env (env_credentials env)) as [e |].
  { destruct (upload_handler_state e (connected st)) as (-> & -> & -> & ->).
    cbn. auto. }
  destruct (sf_cursor env (connections_made st)) as [e |].
  { match goal with
    | |- context [upload_handler e ?s] =>
        destruct (upload_handler_state e s) as (-> & -> & -> & ->)
    end.
    cbn. rewrite <- app_assoc. auto. }
  destruct (sf_cursor_close env (connections_made st)) as [e |].
  { match goal with
    | |- context [upload_handler e ?s] =>
        destruct (upload_handler_state e s) as (-> & -> & -> & ->)
    end.
    cbn. rewrite <- !app_assoc. auto. }
  destruct (sf_conn_close env (connections_made st)) as [e |].
  { match goal with
    | |- context [upload_handler e ?s] =>
        destruct (upload_handler_state e s) as (-> & -> & -> & ->)
    end.
    cbn. rewrite <- !app_assoc. auto. }
  cbn. rewrite <- !app_assoc. auto.
Qed.

(** X15: every call of [upload_to_snowflake] calls [connect] exactly once,
    before any other driver call, and every driver call it makes is on the
    connection that call opened; it touches no file and makes no
    request. *)
Theorem upload_to_snowflake_one_connection (df table_name : pyarg)
    (env : Env) (st : State) :
  let c := connections_made st in
  let st' := snd (upload_to_snowflake df table_name env st) in
  files st' = files st /\
  requests_made st' = requests_made st /\
  count_events is_connect (events st')
    = S (count_events is_connect (events st)) /\
  exists evs,
    events st' = (events st ++ EvConnect c :: evs)%list /\
    forallb (is_driver_event_of c) evs = true.
Proof.
  cbv zeta.
  destruct (upload_to_snowflake_events df table_name env st)
    as (Hf & Hr & _ & Hev).
  split; [exact Hf |]. split; [exact Hr |].
  rewrite Hev, count_events_app.
  destruct (sf_connect env (env_credentials env));
    [| destruct (sf_cursor env (connections_made st));
       [| destruct (sf_cursor_close env (connections_made st))]];
    (split; [cbn; lia |]; eexists; split; [reflexivity |];
     cbn; rewrite ?Nat.eqb_refl; reflexivity).
Qed.

(** X16: when [connect] itself raises, the error is logged and the call
    returns; no cursor is opened and nothing is closed. *)
Theorem upload_to_snowflake_connect_failure (df table_name : pyarg)
    (env : Env) (st : State) (e : exn) :
  sf_connect env (env_credentials env) = Some e ->
  is_Exception e = true ->
  let run := upload_to_snowflake df table_name env st in
  fst run = Returned tt /\
  log (snd run) = (log st ++ [upload_error (exn_msg e)])%list /\
  events (snd run) = (events st ++ [EvConnect (connections_made st)])%list.
Proof.
  intros Hconnect Hexn. cbv zeta.
  rewrite upload_to_snowflake_cases. cbv zeta. rewrite Hconnect.
  unfold upload_handler. rewrite Hexn. repeat split.
Qed.

Lemma upload_to_snowflake_connect_failure_witness :
  sf_connect world_connect_fails (env_credentials world_connect_fails)
    = Some (MkExn DatabaseError "Incorrect username or password") /\
  is_Exception (MkExn DatabaseError "Incorrect username or password") = true /\
  let run := upload_to_snowflake (ArgFrame None) (ArgStr "API_DATA_TABLE")
               world_connect_fails initial_state in
  fst run = Returned tt /\
  log (snd run) =
    (log initial_state
     ++ [upload_error "Incorrect username or password"])%list /\
  events (snd run) =
    (events initial_state ++ [EvConnect (connections_made initial_state)])%list.
Proof.
  split; [reflexivity |]. split; [reflexivity |].
  apply (upload_to_snowflake_connect_failure (ArgFrame None)
           (ArgStr "API_DATA_TABLE") world_connect_fails initial_state
           (MkExn DatabaseError "Incorrect username or password"));
    reflexivity.
Defined.

(** X17: [conn.close()] is called exactly when [connect], [conn.cursor()]
    and [cursor.close()] have all succeeded, and then once; in every other
    case the call ends without closing the connection. *)
Theorem upload_to_snowflake_close_count (df table_name : pyarg)
    (env : Env) (st : State) :
  let c := connections_made st in
  close_count c (events (snd (upload_to_snowflake df table_name env st)))
  = (close_count c (events st)
     + if reaches_close env st then 1 else 0)%nat.
Proof.
  cbv zeta.
  destruct (upload_to_snowflake_events df table_name env st)
    as (_ & _ & _ & Hev).
  rewrite Hev. unfold close_count, reaches_close.
  rewrite count_events_app. f_equal.
  destruct (sf_connect env (env_credentials env));
    [| destruct (sf_cursor env (connections_made st));
       [| destruct (sf_cursor_close env (connections_made st))]];
    cbn; rewrite ?Nat.eqb_refl; reflexivity.
Qed.

(** X18: once [connect] and [conn.cursor()] have succeeded the INFO record
    "Data uploaded to Snowflake table ..." is logged, whatever the data
    and whether or not the closing calls fail afterwards; at most one more
    record follows it. *)
Theorem upload_to_snowflake_logs_upload (df table_name : pyarg)
    (env : Env) (st : State) :
  reaches_insert env st = true ->
  exists recs,
    log (snd (upload_to_snowflake df table_name env st))
      = (log st ++ data_uploaded table_name :: recs)%list /\
    (length recs <= 1)%nat.
Proof.
  unfold reaches_insert. intros Hreach.
  rewrite upload_to_snowflake_cases. cbv zeta.
  destruct (sf_connect env (env_credentials env)); [discriminate |].
  destruct (sf_cursor env (connections_made st)); [discriminate |].
  unfold upload_handler.
  destruct (sf_cursor_close env (connections_made st)) as [e |].
  { destruct (is_Exception e); cbn.
    - eexists. rewrite <- app_assoc. split; [reflexivity | cbn; lia].
    - exists []. split; [reflexivity | cbn; lia]. }
  destruct (sf_conn_close env (connections_made st)) as [e |].
  { destruct (is_Exception e); cbn.
    - eexists. rewrite <- app_assoc. split; [reflexivity | cbn; lia].
    - exists []. split; [reflexivity | cbn; lia]. }
  exists []. split; [reflexivity | cbn; lia].
Qed.

Lemma upload_to_snowflake_logs_upload_witness :
  reaches_insert world_cursor_close_fails initial_state = true /\
  exists recs,
    log (snd (upload_to_snowflake (ArgFrame None) (ArgStr "API_DATA_TABLE")
                world_cursor_close_fails initial_state))
      = (log initial_state
         ++ data_uploaded (ArgStr "API_DATA_TABLE") :: recs)%list /\
    (length recs <= 1)%nat.
Proof.
  split; [reflexivity |].
  apply (upload_to_snowflake_logs_upload (ArgFrame None)
           (ArgStr "API_DATA_TABLE") world_cursor_close_fails initial_state).
  reflexivity.
Defined.

(** ** The orchestrator *)

(** The second pass of [main], by cases on its fetch and its save. *)
Lemma main_second_pass_cases (env : Env) (st : State) :
  main_second_pass env st =
    match pull_data_from_api api_url params env st with
    | (Raised e, st1) => (Raised e, st1)
    | (Returned data, st1) =>
        if truthy data then
          match save_data_to_csv data (output_path env) env st1 with
          | (Raised e, st2) => (Raised e, st2)
          | (Returned _, st2) =>
              if truthy_opt_str (environ env !! "GCS_BUCKET_NAME")
              then (Raised arity_error, add_event (EvLoaderCall 3) st2)
              else (Returned tt, add_log bucket_not_set st2)
          end
        else (Returned tt, add_log no_data_to_save st1)
    end.
Proof.
  unfold main_second_pass, bind, os_getcwd, os_getenv, output_path.
  destruct (pull_data_from_api api_url params env st) as [[data | e] st1];
    [| reflexivity].
  destruct (truthy data); [| reflexivity].
  destruct (save_data_to_csv data (os_path_join (cwd env) "api_data.csv")
              env st1) as [[o | e] st2]; [| reflexivity].
  destruct (truthy_opt_str (environ env !! "GCS_BUCKET_NAME")); reflexivity.
Qed.

(** [main], by cases on its first fetch and its first save. *)
Lemma main_cases (env : Env) (st : State) :
  main env st =
    match pull_data_from_api api_url params env st with
    | (Raised e, st1) => (Raised e, st1)
    | (Returned data, st1) =>
        if truthy data then
          match save_data_to_csv data (output_path env) env st1 with
          | (Raised e, st2) => (Raised e, st2)
          | (Returned _, st2) => main_second_pass env st2
          end
        else (Returned tt, add_log no_data_to_process st1)
    end.
Proof.
  unfold main, bind, os_getcwd, output_path.
  destruct (pull_data_from_api api_url params env st) as [[data | e] st1];
    [| reflexivity].
  destruct (truthy data); [| reflexivity].
  pose proof (save_data_to_csv_no_frame data
                (os_path_join (cwd env) "api_data.csv") env st1) as Hnone.
  destruct (save_data_to_csv data (os_path_join (cwd env) "api_data.csv")
              env st1) as [[[df |] | e] st2]; cbn [fst] in Hnone.
  - exfalso. apply (Hnone df). reflexivity.
  - reflexivity.
  - reflexivity.
Qed.

Section Footprint.

Variables (allowed : event -> bool) (out : string).

Lemma footprint_refl (st : State) : footprint allowed out st st.
Proof.
  split; [reflexivity |]. exists []. split; [| reflexivity].
  symmetry. apply app_nil_r.
Qed.

Lemma footprint_trans (st1 st2 st3 : State) :
  footprint allowed out st1 st2 -> footprint allowed out st2 st3 ->
  footprint allowed out st1 st3.
Proof.
  intros [Hf1 (evs1 & He1 & Ha1)] [Hf2 (evs2 & He2 & Ha2)].
  split; [congruence |]. exists (evs1 ++ evs2)%list. split.
  - rewrite He2, He1, <- app_assoc. reflexivity.
  - rewrite forallb_app, Ha1, Ha2. reflexivity.
Qed.

Lemma footprint_add_log (r : log_record) (st : State) :
  footprint allowed out st (add_log r st).
Proof.
  split; [reflexivity |]. exists []. split; [| reflexivity].
  symmetry. apply app_nil_r.
Qed.

Lemma footprint_add_event (ev : event) (st : State) :
  allowed ev = true -> footprint allowed out st (add_event ev st).
Proof.
  intros Hev. split; [reflexivity |]. exists [ev]. split; [reflexivity |].
  cbn. rewrite Hev. reflexivity.
Qed.

Lemma footprint_pull (url : string) (ps : list (string * string))
    (env : Env) (st : State) :
  allowed (EvHttpGet url) = true ->
  footprint allowed out st (snd (pull_data_from_api url ps env st)).
Proof.
  intros Hev.
  destruct (pull_data_from_api_effects url ps env st) as (Hf & He & _ & _).
  split; [rewrite Hf; reflexivity |]. exists [EvHttpGet url].
  split; [exact He |]. cbn. rewrite Hev. reflexivity.
Qed.

Lemma footprint_save (data : pyval) (env : Env) (st : State) :
  allowed (EvFileWrite out) = true ->
  footprint allowed out st (snd (save_data_to_csv data out env st)).
Proof.
  intros Hev. rewrite save_data_to_csv_cases, pd_DataFrame_run.
  destruct (fst (pd_DataFrame data env st)) as [df | e].
  - destruct (bool_decide (out ∈ unwritable env)); cbn [snd].
    + apply footprint_add_log.
    + eapply footprint_trans; [| apply footprint_add_log].
      split; [cbn; apply delete_insert_eq |]. exists [EvFileWrite out].
      split; [reflexivity |]. cbn. rewrite Hev. reflexivity.
  - destruct (is_Exception e); cbn [snd];
      [apply footprint_add_log | apply footprint_refl].
Qed.

End Footprint.

Lemma log_grows_refl (st : State) : log_grows st st.
Proof. exists []. symmetry. apply app_nil_r. Qed.

Lemma log_grows_trans (st1 st2 st3 : State) :
  log_grows st1 st2 -> log_grows st2 st3 -> log_grows st1 st3.
Proof.
  intros [recs1 H1] [recs2 H2]. exists (recs1 ++ recs2)%list.
  rewrite H2, H1, <- app_assoc. reflexivity.
Qed.

Lemma log_grows_add_log (r : log_record) (st : State) :
  log_grows st (add_log r st).
Proof. exists [r]. reflexivity. Qed.

Lemma log_grows_add_event (ev : event) (st : State) :
  log_grows st (add_event ev st).
Proof. exists []. symmetry. apply app_nil_r. Qed.

Lemma log_grows_pull (url : string) (ps : list (string * string))
    (env : Env) (st : State) :
  log_grows st (snd (pull_data_from_api url ps env st)).
Proof.
  rewrite pull_data_from_api_cases.
  assert (log_grows st (requested url st)) as H0
    by (exists []; symmetry; apply app_nil_r).
  assert (forall r1, log_grows st (add_log r1 (requested url st))) as H1
    by (intros r1; eapply log_grows_trans; [exact H0 | apply log_grows_add_log]).
  assert (forall r1 r2,
            log_grows st (add_log r2 (add_log r1 (requested url st)))) as H2
    by (intros r1 r2; eapply log_grows_trans;
        [apply H1 | apply log_grows_add_log]).
  destruct (http_get env (requests_made st) url ps) as [e | r].
  - destruct (is_RequestException e); cbn [snd]; auto.
  - destruct (bad_status r); cbn [snd]; auto.
    destruct (json_body r) as [v | | e]; cbn [snd]; auto.
    destruct (is_RequestException e); cbn [snd]; auto.
Qed.

Lemma log_grows_save (data : pyval) (path : string) (env : Env) (st : State) :
  log_grows st (snd (save_data_to_csv data path env st)).
Proof.
  rewrite save_data_to_csv_cases, pd_DataFrame_run.
  destruct (fst (pd_DataFrame data env st)) as [df | e].
  - destruct (bool_decide (path ∈ unwritable env)); cbn [snd];
      [apply log_grows_add_log |].
    eapply log_grows_trans; [| apply log_grows_add_log].
    exists []. symmetry. apply app_nil_r.
  - destruct (is_Exception e); cbn [snd];
      [apply log_grows_add_log | apply log_grows_refl].
Qed.

Lemma main_second_pass_log_grows (env : Env) (st : State) :
  log_grows st (snd (main_second_pass env st)).
Proof.
  rewrite main_second_pass_cases.
  pose proof (log_grows_pull api_url params env st) as H1.
  destruct (pull_data_from_api api_url params env st) as [[data | e] st1];
    cbn [snd] in *; [| exact H1].
  destruct (truthy data);
    [| eapply log_grows_trans; [exact H1 | apply log_grows_add_log]].
  pose proof (log_grows_save data (output_path env) env st1) as H2.
  destruct (save_data_to_csv data (output_path env) env st1)
    as [[o | e] st2]; cbn [snd] in *;
    [| eapply log_grows_trans; eassumption].
  eapply log_grows_trans; [exact H1 |].
  eapply log_grows_trans; [exact H2 |].
  destruct (truthy_opt_str (environ env !! "GCS_BUCKET_NAME")); cbn [snd].
  - apply log_grows_add_event.
  - apply log_grows_add_log.
Qed.

Lemma main_log_grows (env : Env) (st : State) :
  log_grows st (snd (main env st)).
Proof.
  rewrite main_cases.
  pose proof (log_grows_pull api_url params env st) as H1.
  destruct (pull_data_from_api api_url params env st) as [[data | e] st1];
    cbn [snd] in *; [| exact H1].
  destruct (truthy data);
    [| eapply log_grows_trans; [exact H1 | apply log_grows_add_log]].
  pose proof (log_grows_save data (output_path env) env st1) as H2.
  destruct (save_data_to_csv data (output_path env) env st1)
    as [[o | e] st2]; cbn [snd] in *;
    [| eapply log_grows_trans; eassumption].
  eapply log_grows_trans; [exact H1 |].
  eapply log_grows_trans; [exact H2 |].
  apply main_second_pass_log_grows.
Qed.

Lemma main_event_get (out : string) :
  main_event out (EvHttpGet api_url) = true.
Proof. reflexivity. Qed.

Lemma main_event_write (out : string) :
  main_event out (EvFileWrite out) = true.
Proof. cbn. apply String.eqb_refl. Qed.

Lemma main_second_pass_footprint (env : Env) (st : State) :
  footprint (main_event (output_path env)) (output_path env) st
    (snd (main_second_pass env st)).
Proof.
  rewrite main_second_pass_cases.
  pose proof (footprint_pull (main_event (output_path env)) (output_path env)
                api_url params env st (main_event_get _)) as H1.
  destruct (pull_data_from_api api_url params env st) as [[data | e] st1];
    cbn [snd] in *; [| exact H1].
  destruct (truthy data);
    [| eapply footprint_trans; [exact H1 | apply footprint_add_log]].
  pose proof (footprint_save (main_event (output_path env)) (output_path env)
                data env st1 (main_event_write _)) as H2.
  destruct (save_data_to_csv data (output_path env) env st1)
    as [[o | e] st2]; cbn [snd] in *;
    [| eapply footprint_trans; eassumption].
  eapply footprint_trans; [exact H1 |].
  eapply footprint_trans; [exact H2 |].
  destruct (truthy_opt_str (environ env !! "GCS_BUCKET_NAME")); cbn [snd].
  - apply footprint_add_event. reflexivity.
  - apply footprint_add_log.
Qed.

Lemma main_keeps_footprint (env : Env) (st : State) :
  footprint (main_event (output_path env)) (output_path env) st
    (snd (main env st)).
Proof.
  rewrite main_cases.
  pose proof (footprint_pull (main_event (output_path env)) (output_path env)
                api_url params env st (main_event_get _)) as H1.
  destruct (pull_data_from_api api_url params env st) as [[data | e] st1];
    cbn [snd] in *; [| exact H1].
  destruct (truthy data);
    [| eapply footprint_trans; [exact H1 | apply footprint_add_log]].
  pose proof (footprint_save (main_event (output_path env)) (output_path env)
                data env st1 (main_event_write _)) as H2.
  destruct (save_data_to_csv data (output_path env) env st1)
    as [[o | e] st2]; cbn [snd] in *;
    [| eapply footprint_trans; eassumption].
  eapply footprint_trans; [exact H1 |].
  eapply footprint_trans; [exact H2 |].
  apply main_second_pass_footprint.
Qed.

(** X19: what a run of [main] writes and calls, in every world.  It
    appends records to the log (which the logging configuration sends to
    the console and to [script.log]); apart from that it writes no file but
    [api_data.csv] in the working directory.  The only calls it makes are
    GETs of the API URL, writes of that file and three-argument calls of
    the loader: no driver call and no two-argument loader call is ever
    made. *)
Theorem main_footprint (env : Env) (st : State) :
  let out := os_path_join (cwd env) "api_data.csv" in
  let st' := snd (main env st) in
  (exists recs, log st' = (log st ++ recs)%list) /\
  delete out (files st') = delete out (files st) /\
  exists evs,
    events st' = (events st ++ evs)%list /\
    forallb (fun ev =>
               match ev with
               | EvHttpGet url => String.eqb url api_url
               | EvFileWrite path => String.eqb path out
               | EvLoaderCall nargs => Nat.eqb nargs 3
               | _ => false
               end) evs = true.
Proof.
  split; [exact (main_log_grows env st) |].
  exact (main_keeps_footprint env st).
Qed.

(** What pandas raises on the shapes modelled here is an [Exception]. *)
Lemma pd_DataFrame_raises_Exception (data : pyval) (env : Env) (st : State)
    (e : exn) :
  pandas_raises_only_Exception env ->
  fst (pd_DataFrame data env st) = Raised e -> is_Exception e = true.
Proof.
  intros Hsafe.
  destruct data as [| b | z | s | [| [] items] | entries]; cbn;
    try discriminate; try (intros [= <-]; reflexivity);
    try (apply Hsafe).
  destruct (as_dicts items); cbn; [discriminate | apply Hsafe].
Qed.

(** With such a pandas, [save_data_to_csv] always returns [None], and it
    makes no request. *)
Lemma save_data_to_csv_returns (data : pyval) (path : string)
    (env : Env) (st : State) :
  pandas_raises_only_Exception env ->
  exists st',
    save_data_to_csv data path env st = (Returned None, st') /\
    requests_made st' = requests_made st.
Proof.
  intros Hsafe. rewrite save_data_to_csv_cases, pd_DataFrame_run.
  pose proof (pd_DataFrame_raises_Exception data env st) as Hexn.
  destruct (fst (pd_DataFrame data env st)) as [df | e].
  - destruct (bool_decide (path ∈ unwritable env)); eexists;
      (split; [reflexivity |]); reflexivity.
  - rewrite (Hexn e Hsafe eq_refl). eexists. split; reflexivity.
Qed.

(** A fetch whose answer passes the status check and decodes to [v]. *)
Lemma pull_data_from_api_answer (env : Env) (st : State) (r : response)
    (v : pyval) :
  http_get env (requests_made st) api_url params = HttpResponse r ->
  bad_status r = false ->
  json_body r = Decoded v ->
  exists st1,
    pull_data_from_api api_url params env st = (Returned v, st1) /\
    requests_made st1 = S (requests_made st).
Proof.
  intros Hget Hstatus Hbody.
  rewrite pull_data_from_api_cases, Hget, Hstatus, Hbody.
  eexists. split; reflexivity.
Qed.

(** The state in which the second pass starts when the first fetch
    delivered data. *)
Lemma main_first_pass (env : Env) (st : State) (r : response) (v : pyval) :
  http_get env (requests_made st) api_url params = HttpResponse r ->
  bad_status r = false ->
  json_body r = Decoded v ->
  truthy v = true ->
  pandas_raises_only_Exception env ->
  exists st2,
    main env st = main_second_pass env st2 /\
    requests_made st2 = S (requests_made st).
Proof.
  intros Hget Hstatus Hbody Htruthy Hsafe.
  destruct (pull_data_from_api_answer env st r v Hget Hstatus Hbody)
    as (st1 & Hpull & Hreq1).
  destruct (save_data_to_csv_returns v (output_path env) env st1 Hsafe)
    as (st2 & Hsave & Hreq2).
  exists st2. split; [| congruence].
  rewrite main_cases, Hpull, Htruthy, Hsave. reflexivity.
Qed.

(** X20: whenever both fetches deliver truthy data and [GCS_BUCKET_NAME]
    is set to a non-empty value, the run of [main] ends with the uncaught
    [TypeError] of the three-argument loader call, which is the last call
    traced. *)
Theorem main_raises_when_bucket_set (env : Env) (st : State)
    (r1 r2 : response) (v1 v2 : pyval) :
  http_get env (requests_made st) api_url params = HttpResponse r1 ->
  bad_status r1 = false -> json_body r1 = Decoded v1 -> truthy v1 = true ->
  http_get env (S (requests_made st)) api_url params = HttpResponse r2 ->
  bad_status r2 = false -> json_body r2 = Decoded v2 -> truthy v2 = true ->
  pandas_raises_only_Exception env ->
  truthy_opt_str (environ env !! "GCS_BUCKET_NAME") = true ->
  fst (main env st) = Raised arity_error /\
  last (events (snd (main env st))) = Some (EvLoaderCall 3).
Proof.
  intros Hget1 Hs1 Hb1 Ht1 Hget2 Hs2 Hb2 Ht2 Hsafe Hbucket.
  destruct (main_first_pass env st r1 v1 Hget1 Hs1 Hb1 Ht1 Hsafe)
    as (st2 & -> & Hreq).
  rewrite <- Hreq in Hget2.
  destruct (pull_data_from_api_answer env st2 r2 v2 Hget2 Hs2 Hb2)
    as (st3 & Hpull & _).
  destruct (save_data_to_csv_returns v2 (output_path env) env st3 Hsafe)
    as (st4 & Hsave & _).
  rewrite main_second_pass_cases, Hpull, Ht2, Hsave, Hbucket.
  split; [reflexivity |]. cbn. apply last_snoc.
Qed.

Lemma main_raises_when_bucket_set_witness :
  http_get world_bucket (requests_made initial_state) api_url params
    = HttpResponse (MkResponse 200 "" (Decoded two_records)) /\
  bad_status (MkResponse 200 "" (Decoded two_records)) = false /\
  json_body (MkResponse 200 "" (Decoded two_records)) = Decoded two_records /\
  truthy two_records = true /\
  http_get world_bucket (S (requests_made initial_state)) api_url params
    = HttpResponse (MkResponse 200 "" (Decoded two_records)) /\
  pandas_raises_only_Exception world_bucket /\
  truthy_opt_str (environ world_bucket !! "GCS_BUCKET_NAME") = true /\
  fst (main world_bucket initial_state) = Raised arity_error /\
  last (events (snd (main world_bucket initial_state)))
    = Some (EvLoaderCall 3).
Proof.
  split; [reflexivity |]. split; [reflexivity |]. split; [reflexivity |].
  split; [reflexivity |]. split; [reflexivity |].
  split; [intros v e [= <-]; reflexivity |].
  split; [vm_compute; reflexivity |].
  apply (main_raises_when_bucket_set world_bucket initial_state
           (MkResponse 200 "" (Decoded two_records))
           (MkResponse 200 "" (Decoded two_records)) two_records two_records);
    try reflexivity.
  intros v e [= <-]; reflexivity.
Defined.

(** X21: whenever both fetches deliver truthy data and [GCS_BUCKET_NAME]
    is unset or empty, the run of [main] returns after logging that the
    variable is not set, and no loader call has been made. *)
Theorem main_stops_when_bucket_unset (env : Env) (st : State)
    (r1 r2 : response) (v1 v2 : pyval) :
  http_get env (requests_made st) api_url params = HttpResponse r1 ->
  bad_status r1 = false -> json_body r1 = Decoded v1 -> truthy v1 = true ->
  http_get env (S (requests_made st)) api_url params = HttpResponse r2 ->
  bad_status r2 = false -> json_body r2 = Decoded v2 -> truthy v2 = true ->
  pandas_raises_only_Exception env ->
  truthy_opt_str (environ env !! "GCS_BUCKET_NAME") = false ->
  fst (main env st) = Returned tt /\
  last (log (snd (main env st))) = Some bucket_not_set /\
  requests_made (snd (main env st)) = S (S (requests_made st)).
Proof.
  intros Hget1 Hs1 Hb1 Ht1 Hget2 Hs2 Hb2 Ht2 Hsafe Hbucket.
  destruct (main_first_pass env st r1 v1 Hget1 Hs1 Hb1 Ht1 Hsafe)
    as (st2 & -> & Hreq).
  rewrite <- Hreq in Hget2.
  destruct (pull_data_from_api_answer env st2 r2 v2 Hget2 Hs2 Hb2)
    as (st3 & Hpull & Hreq3).
  destruct (save_data_to_csv_returns v2 (output_path env) env st3 Hsafe)
    as (st4 & Hsave & Hreq4).
  rewrite main_second_pass_cases, Hpull, Ht2, Hsave, Hbucket.
  split; [reflexivity |]. split; [apply last_add_log |].
  cbn. congruence.
Qed.

Lemma main_stops_when_bucket_unset_witness :
  http_get world_two_records (requests_made initial_state) api_url params
    = HttpResponse (MkResponse 200 "" (Decoded two_records)) /\
  bad_status (MkResponse 200 "" (Decoded two_records)) = false /\
  json_body (MkResponse 200 "" (Decoded two_records)) = Decoded two_records /\
  truthy two_records = true /\
  http_get world_two_records (S (requests_made initial_state)) api_url params
    = HttpResponse (MkResponse 200 "" (Decoded two_records)) /\
  pandas_raises_only_Exception world_two_records /\
  truthy_opt_str (environ world_two_records !! "GCS_BUCKET_NAME") = false /\
  fst (main world_two_records initial_state) = Returned tt /\
  last (log (snd (main world_two_records initial_state)))
    = Some bucket_not_set /\
  requests_made (snd (main world_two_records initial_state))
    = S (S (requests_made initial_state)).
Proof.
  split; [reflexivity |]. split; [reflexivity |]. split; [reflexivity |].
  split; [reflexivity |]. split; [reflexivity |].
  split; [intros v e [= <-]; reflexivity |].
  split; [vm_compute; reflexivity |].
  apply (main_stops_when_bucket_unset world_two_records initial_state
           (MkResponse 200 "" (Decoded two_records))
           (MkResponse 200 "" (Decoded two_records)) two_records two_records);
    try reflexivity.
  intros v e [= <-]; reflexivity.
Defined.

(** X22: when the first fetch delivers truthy data and the second fetch
    fails, the run of [main] returns after logging "No data to save.
    Exiting."; two requests have been made. *)
Theorem main_second_fetch_fails (env : Env) (st : State)
    (r1 : response) (v1 : pyval) :
  http_get env (requests_made st) api_url params = HttpResponse r1 ->
  bad_status r1 = false -> json_body r1 = Decoded v1 -> truthy v1 = true ->
  fetch_failed (http_get env (S (requests_made st)) api_url params) = true ->
  pandas_raises_only_Exception env ->
  fst (main env st) = Returned tt /\
  last (log (snd (main env st))) = Some no_data_to_save /\
  requests_made (snd (main env st)) = S (S (requests_made st)).
Proof.
  intros Hget1 Hs1 Hb1 Ht1 Hfail Hsafe.
  destruct (main_first_pass env st r1 v1 Hget1 Hs1 Hb1 Ht1 Hsafe)
    as (st2 & -> & Hreq).
  rewrite <- Hreq in Hfail.
  destruct (failed_fetch_returns_None api_url params env st2 Hfail)
    as (msg & st3 & Hpull).
  pose proof (pull_data_from_api_effects api_url params env st2) as Heff.
  rewrite Hpull in Heff. cbn [snd] in Heff. destruct Heff as (_ & _ & _ & Hr).
  rewrite main_second_pass_cases, Hpull. cbn [truthy fst snd].
  split; [reflexivity |]. split; [apply last_add_log |].
  cbn in *. congruence.
Qed.

Lemma main_second_fetch_fails_witness :
  http_get world_second_fetch_fails (requests_made initial_state)
      api_url params
    = HttpResponse (MkResponse 200 "" (Decoded two_records)) /\
  bad_status (MkResponse 200 "" (Decoded two_records)) = false /\
  json_body (MkResponse 200 "" (Decoded two_records)) = Decoded two_records /\
  truthy two_records = true /\
  fetch_failed (http_get world_second_fetch_fails
                  (S (requests_made initial_state)) api_url params) = true /\
  pandas_raises_only_Exception world_second_fetch_fails /\
  fst (main world_second_fetch_fails initial_state) = Returned tt /\
  last (log (snd (main world_second_fetch_fails initial_state)))
    = Some no_data_to_save /\
  requests_made (snd (main world_second_fetch_fails initial_state))
    = S (S (requests_made initial_state)).
Proof.
  split; [reflexivity |]. split; [reflexivity |]. split; [reflexivity |].
  split; [reflexivity |]. split; [reflexivity |].
  split; [intros v e [= <-]; reflexivity |].
  apply (main_second_fetch_fails world_second_fetch_fails initial_state
           (MkResponse 200 "" (Decoded two_records)) two_records);
    try reflexivity.
  intros v e [= <-]; reflexivity.
Defined.

Lemma save_data_to_csv_requests (data : pyval) (path : string)
    (env : Env) (st : State) :
  requests_made (snd (save_data_to_csv data path env st)) = requests_made st.
Proof.
  rewrite save_data_to_csv_cases, pd_DataFrame_run.
  destruct (fst (pd_DataFrame data env st)) as [df | e].
  - destruct (bool_decide (path ∈ unwritable env)); reflexivity.
  - destruct (is_Exception e); reflexivity.
Qed.

Lemma main_second_pass_requests (env : Env) (st : State) :
  requests_made (snd (main_second_pass env st)) = S (requests_made st).
Proof.
  rewrite main_second_pass_cases.
  destruct (pull_data_from_api_effects api_url params env st)
    as (_ & _ & _ & Hr).
  destruct (pull_data_from_api api_url params env st) as [[v | e] st1];
    cbn [snd] in *; [| exact Hr].
  destruct (truthy v); [| exact Hr].
  pose proof (save_data_to_csv_requests v (output_path env) env st1) as Hs.
  destruct (save_data_to_csv v (output_path env) env st1) as [[o | e] st2];
    cbn [snd] in *; [| congruence].
  destruct (truthy_opt_str (environ env !! "GCS_BUCKET_NAME")); cbn;
    congruence.
Qed.

(** X24: in every world a run of [main] sends one request or two, never
    none and never more. *)
Theorem main_request_count (env : Env) (st : State) :
  requests_made (snd (main env st)) = S (requests_made st) \/
  requests_made (snd (main env st)) = S (S (requests_made st)).
Proof.
  rewrite main_cases.
  destruct (pull_data_from_api_effects api_url params env st)
    as (_ & _ & _ & Hr).
  destruct (pull_data_from_api api_url params env st) as [[v | e] st1];
    cbn [snd] in *; [| left; exact Hr].
  destruct (truthy v); [| left; exact Hr].
  pose proof (save_data_to_csv_requests v (output_path env) env st1) as Hs.
  destruct (save_data_to_csv v (output_path env) env st1) as [[o | e] st2];
    cbn [snd] in *; [| left; congruence].
  right. rewrite main_second_pass_requests. congruence.
Qed.

Lemma truthy_records (recs : list (list (string * pyval))) :
  (0 < length recs)%nat -> truthy (PyList (map PyDict recs)) = true.
Proof. destruct recs; cbn; [lia | reflexivity]. Qed.

Lemma save_data_to_csv_records_state (recs : list (list (string * pyval)))
    (path : string) (env : Env) (st : State) :
  (0 < length recs)%nat ->
  bool_decide (path ∈ unwritable env) = false ->
  save_data_to_csv (PyList (map PyDict recs)) path env st =
    (Returned None,
     add_log (data_saved path) (written path (frame_of_records recs) st)).
Proof.
  intros Hlen Hwritable.
  rewrite save_data_to_csv_cases, pd_DataFrame_records, Hwritable;
    [reflexivity |].
  destruct recs; [cbn in Hlen; lia | discriminate].
Qed.

(** X25: when both fetches deliver records and the output path is
    writable, the file a run of [main] leaves behind holds the records of
    the second fetch: the table written from the first fetch has been
    overwritten. *)
Theorem main_keeps_second_payload (env : Env) (st : State)
    (r1 r2 : response) (recs1 recs2 : list (list (string * pyval))) :
  http_get env (requests_made st) api_url params = HttpResponse r1 ->
  bad_status r1 = false ->
  json_body r1 = Decoded (PyList (map PyDict recs1)) ->
  (0 < length recs1)%nat ->
  http_get env (S (requests_made st)) api_url params = HttpResponse r2 ->
  bad_status r2 = false ->
  json_body r2 = Decoded (PyList (map PyDict recs2)) ->
  (0 < length recs2)%nat ->
  bool_decide (os_path_join (cwd env) "api_data.csv" ∈ unwritable env)
    = false ->
  files (snd (main env st)) !! os_path_join (cwd env) "api_data.csv"
  = Some (csv_of (frame_of_records recs2)).
Proof.
  intros Hget1 Hs1 Hb1 Hl1 Hget2 Hs2 Hb2 Hl2 Hwritable.
  fold (output_path env) in *.
  destruct (pull_data_from_api_answer env st r1 _ Hget1 Hs1 Hb1)
    as (st1 & Hpull1 & Hreq1).
  rewrite main_cases, Hpull1, (truthy_records recs1 Hl1).
  rewrite (save_data_to_csv_records_state recs1 _ env st1 Hl1 Hwritable).
  set (st2 := add_log _ (written _ _ st1)).
  assert (requests_made st2 = S (requests_made st)) as Hreq2
    by (subst st2; cbn; exact Hreq1).
  rewrite <- Hreq2 in Hget2.
  destruct (pull_data_from_api_answer env st2 r2 _ Hget2 Hs2 Hb2)
    as (st3 & Hpull2 & _).
  rewrite main_second_pass_cases, Hpull2, (truthy_records recs2 Hl2).
  rewrite (save_data_to_csv_records_state recs2 _ env st3 Hl2 Hwritable).
  destruct (truthy_opt_str (environ env !! "GCS_BUCKET_NAME")); cbn;
    apply lookup_insert_eq.
Qed.

Lemma main_keeps_second_payload_witness :
  http_get world_changing_payload (requests_made initial_state)
      api_url params
    = HttpResponse (MkResponse 200 "" (Decoded two_records)) /\
  bad_status (MkResponse 200 "" (Decoded two_records)) = false /\
  json_body (MkResponse 200 "" (Decoded two_records))
    = Decoded (PyList (map PyDict
              [[("id", PyInt 1); ("val", PyStr "a")];
               [("id", PyInt 2); ("val", PyStr "b")]])) /\
  (0 < length [[("id", PyInt 1); ("val", PyStr "a")];
               [("id", PyInt 2); ("val", PyStr "b")]])%nat /\
  http_get world_changing_payload (S (requests_made initial_state))
      api_url params
    = HttpResponse
        (MkResponse 200 "" (Decoded (PyList [PyDict [("id", PyInt 3)]]))) /\
  bad_status
    (MkResponse 200 "" (Decoded (PyList [PyDict [("id", PyInt 3)]]))) = false /\
  json_body (MkResponse 200 "" (Decoded (PyList [PyDict [("id", PyInt 3)]])))
    = Decoded (PyList (map PyDict [[("id", PyInt 3)]])) /\
  (0 < length [[("id", PyInt 3)]])%nat /\
  bool_decide (os_path_join (cwd world_changing_payload) "api_data.csv"
               ∈ unwritable world_changing_payload) = false /\
  files (snd (main world_changing_payload initial_state))
    !! os_path_join (cwd world_changing_payload) "api_data.csv"
  = Some (csv_of (frame_of_records [[("id", PyInt 3)]])).
Proof.
  split; [reflexivity |]. split; [reflexivity |]. split; [reflexivity |].
  split; [cbn; lia |]. split; [reflexivity |]. split; [reflexivity |].
  split; [reflexivity |]. split; [cbn; lia |].
  split; [vm_compute; reflexivity |].
  apply (main_keeps_second_payload world_changing_payload initial_state
           (MkResponse 200 "" (Decoded two_records))
           (MkResponse 200 "" (Decoded (PyList [PyDict [("id", PyInt 3)]])))
           [[("id", PyInt 1); ("val", PyStr "a")];
            [("id", PyInt 2); ("val", PyStr "b")]]
           [[("id", PyInt 3)]]);
    first [reflexivity | cbn; lia].
Defined.

(** ** Exceptions of the decoder *)

(** X26: when the status passes and [Response.json()] raises an exception
    that is not a [RequestException] (the [RecursionError] of a body nested
    too deeply, for one), [pull_data_from_api] does not catch it: the
    exception reaches the caller, after the INFO record "Successfully
    pulled data" has been logged and without any ERROR record. *)
Theorem pull_data_from_api_decoder_exception_propagates (url : string)
    (ps : list (string * string)) (env : Env) (st : State)
    (r : response) (e : exn) :
  http_get env (requests_made st) url ps = HttpResponse r ->
  bad_status r = false ->
  json_body r = DecodeRaises e ->
  is_RequestException e = false ->
  let run := pull_data_from_api url ps env st in
  fst run = Raised e /\
  log (snd run) = (log st ++ [pull_success url])%list.
Proof.
  intros Hget Hstatus Hbody Hforeign. cbv zeta.
  rewrite pull_data_from_api_cases, Hget, Hstatus, Hbody, Hforeign.
  split; reflexivity.
Qed.

Lemma pull_data_from_api_decoder_exception_propagates_witness :
  http_get world_deep_body (requests_made initial_state) api_url params
    = HttpResponse
        (MkResponse 200 ""
           (DecodeRaises
              (MkExn RecursionError
                 "maximum recursion depth exceeded while decoding a JSON array"))) /\
  bad_status
    (MkResponse 200 ""
       (DecodeRaises
          (MkExn RecursionError
             "maximum recursion depth exceeded while decoding a JSON array")))
    = false /\
  json_body
    (MkResponse 200 ""
       (DecodeRaises
          (MkExn RecursionError
             "maximum recursion depth exceeded while decoding a JSON array")))
    = DecodeRaises
        (MkExn RecursionError
           "maximum recursion depth exceeded while decoding a JSON array") /\
  is_RequestException
    (MkExn RecursionError
       "maximum recursion depth exceeded while decoding a JSON array") = false /\
  let run := pull_data_from_api api_url params world_deep_body
               initial_state in
  fst run =
    Raised (MkExn RecursionError
      "maximum recursion depth exceeded while decoding a JSON array") /\
  log (snd run) = (log initial_state ++ [pull_success api_url])%list.
Proof.
  split; [reflexivity |]. split; [reflexivity |]. split; [reflexivity |].
  split; [reflexivity |].
  apply (pull_data_from_api_decoder_exception_propagates api_url params
           world_deep_body initial_state
           (MkResponse 200 ""
              (DecodeRaises
                 (MkExn RecursionError
                    "maximum recursion depth exceeded while decoding a JSON array")))
           (MkExn RecursionError
              "maximum recursion depth exceeded while decoding a JSON array"));
    reflexivity.
Defined.

(** X27: [main] calls the fetcher outside every [try].  When the first
    fetch lets an exception through (raised by [requests.get] or by
    [Response.json()], and not a [RequestException]), the run of [main]
    ends with that exception; one request has been made and no data file
    has been written. *)
Theorem main_propagates_fetch_exception (env : Env) (st : State) :
  raises_foreign (http_get env (requests_made st) api_url params) = true ->
  exists e,
    fst (main env st) = Raised e /\
    is_RequestException e = false /\
    files (snd (main env st)) = files st /\
    events (snd (main env st)) = (events st ++ [EvHttpGet api_url])%list.
Proof.
  intros Hforeign.
  pose proof (pull_data_from_api_effects api_url params env st) as Heff.
  rewrite main_cases. revert Heff. rewrite pull_data_from_api_cases.
  destruct (http_get env (requests_made st) api_url params) as [e | r];
    cbn in Hforeign.
  - destruct (is_RequestException e) eqn:Hexn; [discriminate |].
    cbn [snd]. intros (Hf & He & _). exists e. auto.
  - destruct (bad_status r); [discriminate |].
    destruct (json_body r) as [v | | e]; try discriminate.
    destruct (is_RequestException e) eqn:Hexn; [discriminate |].
    cbn [snd]. intros (Hf & He & _). exists e. auto.
Qed.

Lemma main_propagates_fetch_exception_witness :
  raises_foreign (http_get world_deep_body (requests_made initial_state)
                    api_url params) = true /\
  exists e,
    fst (main world_deep_body initial_state) = Raised e /\
    is_RequestException e = false /\
    files (snd (main world_deep_body initial_state)) = files initial_state /\
    events (snd (main world_deep_body initial_state))
      = (events initial_state ++ [EvHttpGet api_url])%list.
Proof.
  split; [reflexivity |].
  apply (main_propagates_fetch_exception world_deep_body initial_state).
  reflexivity.
Defined.
